(** * Rad: testplate calculator and Zemax prescription parser

    A shallow embedding of the two computational modules of the
    repository, [Calculations] (calculations.js) and [ZemaxParser]
    (zemax-parser.js), together with the properties stated about them.

    Numbers.  A JavaScript Number is an IEEE 754 binary64 value.  The
    calculator is embedded twice.  [Calculations64] has the arithmetic
    of the code: binary64, every operation rounded to nearest, with the
    infinities, the two zeros and [NaN]; what depends on rounding,
    overflow or underflow is stated and proved there.  [Calculations]
    is the same code over the real numbers [R] ([Math.sqrt] is [sqrt],
    [Math.abs] is [Rabs]), with rounding left out.  The parser, which
    reads decimal text, works over the rationals [Q] extended with
    [NaN] and the two infinities.

    Strings.  A JavaScript string is modelled by [string]; a character
    is a code unit below 256. *)

From Stdlib Require Import Reals Lra Lia ZArith QArith Qabs Bool List Sorted.
From Stdlib Require Import Ascii String DecimalString SpecFloat.
Import ListNotations.

(** ** Calculations (calculations.js) *)

Module Calculations.

Local Open Scope R_scope.

(** The object returned by [calculateSurface]. *)
Record SurfaceResult : Type := mkSurfaceResult {
  sagTestplate : R;
  sagAdded : R;
  sagActual : R;
  rActual : R
}.

(** [calculateTestplateSag(radius, diameter)]. *)
Definition calculateTestplateSag (radius diameter : R) : R :=
  if Req_dec_T radius 0 then 0
  else if Req_dec_T diameter 0 then 0
  else
    let r2 := radius * radius in
    let d2 := (diameter / 2) * (diameter / 2) in
    if Rlt_dec r2 d2 then 0
    else Rabs radius - sqrt (r2 - d2).

(** [calculateFringeSag(fringes, wavelength)]. *)
Definition calculateFringeSag (fringes wavelength : R) : R :=
  let lambdaMm := wavelength / 1000000 in
  fringes * lambdaMm / 2.

(** [calculateActualSag(type, testplateSag, fringeSag)]. *)
Definition calculateActualSag (type : string) (testplateSag fringeSag : R) : R :=
  if String.eqb type "Convex" then testplateSag + fringeSag
  else testplateSag - fringeSag.

(** [calculateActualRadius(type, diameter, sag)]. *)
Definition calculateActualRadius (type : string) (diameter sag : R) : R :=
  if Req_dec_T sag 0 then 0
  else if Req_dec_T diameter 0 then 0
  else
    let d2 := diameter * diameter / 4 in
    let z2 := sag * sag in
    let radius := (d2 + z2) / (2 * sag) in
    if String.eqb type "Concave" then - Rabs radius
    else Rabs radius.

(** [calculateSurface(type, diameter, rTestplate, fringes, wavelength)]. *)
Definition calculateSurface (type : string)
    (diameter rTestplate fringes wavelength : R) : SurfaceResult :=
  let sagTestplate := calculateTestplateSag rTestplate diameter in
  let sagAdded := calculateFringeSag fringes wavelength in
  let sagActual := calculateActualSag type sagTestplate sagAdded in
  let rActual := calculateActualRadius type diameter sagActual in
  mkSurfaceResult sagTestplate sagAdded sagActual rActual.



End Calculations.

(** ** Binary64 numbers *)

(** The JavaScript Number type as it is: IEEE 754 binary64, rounding to
    nearest with ties to even, through the executable specification of
    the Standard Library ([spec_float] with 53 bits of precision). *)
Module Binary64.

Definition prec : Z := 53.
Definition emax : Z := 1024.

Definition Number : Type := spec_float.

(** The Number nearest to an integer; exact below [2^53]. *)
Definition ofZ (z : Z) : Number := binary_normalize prec emax z 0 false.

(** The Number written as the decimal [m / 10^k], for [|m| < 2^53] and
    [k <= 22]: both operands are exact and the quotient is rounded
    once. *)
Definition decimal (m : Z) (k : nat) : Number :=
  SFdiv prec emax (ofZ m) (ofZ (10 ^ Z.of_nat k)).

(** [2^k] for an exponent in the normal range; [pow2 (-1074)] is
    [Number.MIN_VALUE]. *)
Definition pow2 (k : Z) : Number := SFldexp prec emax (ofZ 1) k.

Definition zero : Number := S754_zero false.
Definition add (x y : Number) : Number := SFadd prec emax x y.
Definition sub (x y : Number) : Number := SFsub prec emax x y.
Definition mul (x y : Number) : Number := SFmul prec emax x y.
Definition div (x y : Number) : Number := SFdiv prec emax x y.
(** [Math.sqrt(x)]. *)
Definition sqrt (x : Number) : Number := SFsqrt prec emax x.
(** [Math.abs(x)]. *)
Definition abs (x : Number) : Number := SFabs x.
(** [-x]. *)
Definition opp (x : Number) : Number := SFopp x.
(** [x < y]. *)
Definition ltb (x y : Number) : bool := SFltb x y.
(** [x <= y]. *)
Definition leb (x y : Number) : bool := SFleb x y.
(** [x === y]: [NaN] equals nothing and the two zeros are equal. *)
Definition strictEq (x y : Number) : bool := SFeqb x y.
(** [isNaN(x)]. *)
Definition isNaN (x : Number) : bool :=
  match x with S754_nan => true | _ => false end.
(** A Number that is neither [NaN] nor an infinity. *)
Definition isFinite (x : Number) : bool :=
  match x with S754_nan | S754_infinity _ => false | _ => true end.

(** A normal Number: a mantissa of 53 bits at an exponent of the
    format; its magnitude is [2^-1022] or more. *)
Definition isNormal (x : Number) : bool :=
  match x with
  | S754_finite _ m e =>
      Pos.eqb (digits2_pos m) 53
      && (emin prec emax <=? e)%Z && (e <=? emax - prec)%Z
  | _ => false
  end.

(** The exponent field: a normal Number with field [e] has magnitude in
    [2^(e+52), 2^(e+53)). *)
Definition exponent (x : Number) : Z :=
  match x with S754_finite _ _ e => e | _ => 0%Z end.

(** The same mantissa one exponent higher, or the infinity when that
    leaves the format. *)
Definition dbl (x : Number) : Number :=
  match x with
  | S754_finite s m e =>
      if (e + 1 <=? emax - prec)%Z then S754_finite s m (e + 1)
      else S754_infinity s
  | _ => x
  end.

End Binary64.

(** ** Calculations in binary64 *)

(** The same functions of calculations.js with the arithmetic of the
    code: every operation is rounded, in the order the source writes
    it. *)
Module Calculations64.

Import Binary64.
Local Open Scope string_scope.

Record SurfaceResult : Type := mkSurfaceResult {
  sagTestplate : Number;
  sagAdded : Number;
  sagActual : Number;
  rActual : Number
}.

(** [calculateTestplateSag(radius, diameter)]. *)
Definition calculateTestplateSag (radius diameter : Number) : Number :=
  if strictEq radius zero || strictEq diameter zero then zero
  else
    let r2 := mul radius radius in
    let d2 := mul (div diameter (ofZ 2)) (div diameter (ofZ 2)) in
    if ltb r2 d2 then zero
    else sub (abs radius) (sqrt (sub r2 d2)).

(** [calculateFringeSag(fringes, wavelength)]. *)
Definition calculateFringeSag (fringes wavelength : Number) : Number :=
  let lambdaMm := div wavelength (ofZ 1000000) in
  div (mul fringes lambdaMm) (ofZ 2).

(** [calculateActualSag(type, testplateSag, fringeSag)]. *)
Definition calculateActualSag (type : string) (testplateSag fringeSag : Number)
    : Number :=
  if String.eqb type "Convex" then add testplateSag fringeSag
  else sub testplateSag fringeSag.

(** The quotient [(d2 + z2) / (2 * sag)] of [calculateActualRadius]. *)
Definition radiusQuotient (diameter sag : Number) : Number :=
  let d2 := div (mul diameter diameter) (ofZ 4) in
  let z2 := mul sag sag in
  div (add d2 z2) (mul (ofZ 2) sag).

(** [calculateActualRadius(type, diameter, sag)]. *)
Definition calculateActualRadius (type : string) (diameter sag : Number)
    : Number :=
  if strictEq sag zero || strictEq diameter zero then zero
  else
    let radius := radiusQuotient diameter sag in
    if String.eqb type "Concave" then opp (abs radius)
    else abs radius.

(** [calculateSurface(type, diameter, rTestplate, fringes, wavelength)]. *)
Definition calculateSurface (type : string)
    (diameter rTestplate fringes wavelength : Number) : SurfaceResult :=
  let sagTestplate := calculateTestplateSag rTestplate diameter in
  let sagAdded := calculateFringeSag fringes wavelength in
  let sagActual := calculateActualSag type sagTestplate sagAdded in
  let rActual := calculateActualRadius type diameter sagActual in
  mkSurfaceResult sagTestplate sagAdded sagActual rActual.

End Calculations64.

(** ** JavaScript built-ins used by the parser *)

Module Js.

Local Open Scope string_scope.
Local Open Scope bool_scope.

(** *** Strings *)

(** White space as [String.prototype.trim], the regular expression
    class [\s] and [parseFloat] see it, among code units below 256:
    TAB, LF, VT, FF, CR, SPACE and NBSP. *)
Definition isWhiteSpace (c : ascii) : bool :=
  let n := N_of_ascii c in
  (N.eqb n 9 || N.eqb n 10 || N.eqb n 11 || N.eqb n 12 || N.eqb n 13
   || N.eqb n 32 || N.eqb n 160)%N.

(** The class [[0-9]]. *)
Definition isDigit (c : ascii) : bool :=
  let n := N_of_ascii c in (N.leb 48 n && N.leb n 57)%N.

Definition isEmpty (s : string) : bool :=
  match s with EmptyString => true | String _ _ => false end.

Fixpoint trimStart (s : string) : string :=
  match s with
  | String c s' => if isWhiteSpace c then trimStart s' else s
  | EmptyString => EmptyString
  end.

Fixpoint trimEnd (s : string) : string :=
  match s with
  | String c s' =>
      let t := trimEnd s' in
      if isWhiteSpace c && isEmpty t then EmptyString else String c t
  | EmptyString => EmptyString
  end.

(** [s.trim()]. *)
Definition trim (s : string) : string := trimEnd (trimStart s).

(** [s.startsWith(p)]. *)
Definition startsWith (s p : string) : bool := String.prefix p s.

(** Puts a character in front of the first piece of a split. *)
Definition consHead (c : ascii) (pieces : list string) : list string :=
  match pieces with
  | t :: ts => String c t :: ts
  | [] => [String c EmptyString]
  end.

(** [s.split('\n')]: always at least one piece. *)
Fixpoint splitNewline (s : string) : list string :=
  match s with
  | EmptyString => [EmptyString]
  | String c s' =>
      if Ascii.eqb c "010"%char then EmptyString :: splitNewline s'
      else consHead c (splitNewline s')
  end.

(** [s.split(/\s+/)]: a maximal run of white space is one separator;
    white space at either end of [s] leaves an empty piece there.
    [inSep] says that the previous character was white space. *)
Fixpoint splitWhitespaceFrom (inSep : bool) (s : string) : list string :=
  match s with
  | EmptyString => [EmptyString]
  | String c s' =>
      if isWhiteSpace c then
        if inSep then splitWhitespaceFrom true s'
        else EmptyString :: splitWhitespaceFrom true s'
      else consHead c (splitWhitespaceFrom false s')
  end.

Definition splitWhitespace (s : string) : list string :=
  splitWhitespaceFrom false s.

(** *** Numbers *)

Inductive Number : Type :=
| NaN : Number
| Infinity (negative : bool) : Number
| Finite (q : Q) : Number.

Definition ofZ (z : Z) : Number := Finite (inject_Z z).

Definition isNaN (x : Number) : bool :=
  match x with NaN => true | _ => false end.

Definition isNegativeQ (q : Q) : bool := negb (Qle_bool 0 q).

(** [x < y]. *)
Definition ltb (x y : Number) : bool :=
  match x, y with
  | NaN, _ | _, NaN => false
  | Infinity true, Infinity true => false
  | Infinity true, _ => true
  | Infinity false, _ => false
  | Finite _, Infinity negative => negb negative
  | Finite p, Finite q => negb (Qle_bool q p)
  end.

(** [x > y]. *)
Definition gtb (x y : Number) : bool := ltb y x.

(** [x === y] on numbers. *)
Definition strictEq (x y : Number) : bool :=
  match x, y with
  | Infinity a, Infinity b => Bool.eqb a b
  | Finite p, Finite q => Qeq_bool p q
  | _, _ => false
  end.

(** [x !== y] on numbers. *)
Definition strictNeq (x y : Number) : bool := negb (strictEq x y).

(** [Math.abs(x)]. *)
Definition abs (x : Number) : Number :=
  match x with
  | NaN => NaN
  | Infinity _ => Infinity false
  | Finite q => Finite (Qabs q)
  end.

(** [x * y]. *)
Definition mul (x y : Number) : Number :=
  match x, y with
  | NaN, _ | _, NaN => NaN
  | Infinity a, Infinity b => Infinity (xorb a b)
  | Infinity a, Finite q | Finite q, Infinity a =>
      if Qeq_bool q 0 then NaN else Infinity (xorb a (isNegativeQ q))
  | Finite p, Finite q => Finite (p * q)
  end.

(** [x / y].  The model has one zero, so a division by zero takes the
    sign of the dividend. *)
Definition div (x y : Number) : Number :=
  match x, y with
  | NaN, _ | _, NaN => NaN
  | Infinity _, Infinity _ => NaN
  | Infinity a, Finite q => Infinity (xorb a (isNegativeQ q))
  | Finite _, Infinity _ => Finite 0
  | Finite p, Finite q =>
      if Qeq_bool q 0 then
        if Qeq_bool p 0 then NaN else Infinity (isNegativeQ p)
      else Finite (p / q)
  end.

(** Equality of values, for stating results: [Finite] up to [Qeq]. *)
Definition sameValue (x y : Number) : Prop :=
  match x, y with
  | NaN, NaN => True
  | Infinity a, Infinity b => a = b
  | Finite p, Finite q => Qeq p q
  | _, _ => False
  end.

(** *** Decimal text to number *)

(** The longest prefix of decimal digits, and what follows it. *)
Fixpoint spanDigits (s : string) : string * string :=
  match s with
  | String c s' =>
      if isDigit c then
        let (d, r) := spanDigits s' in (String c d, r)
      else (EmptyString, s)
  | EmptyString => (EmptyString, EmptyString)
  end.

(** The value of a run of decimal digits read after [acc]. *)
Fixpoint digitsValue (acc : Z) (d : string) : Z :=
  match d with
  | String c d' => digitsValue (10 * acc + (Z.of_N (N_of_ascii c) - 48)) d'
  | EmptyString => acc
  end.

(** [mant * 10^exp10], exactly. *)
Definition decimalValue (mant exp10 : Z) : Q :=
  if (0 <=? exp10)%Z then inject_Z (mant * 10 ^ exp10)
  else Qmake mant (Z.to_pos (10 ^ (- exp10))).

(** An optional sign: whether it is a minus, and the rest. *)
Definition spanSign (s : string) : bool * string :=
  match s with
  | String c s' =>
      if Ascii.eqb c "-"%char then (true, s')
      else if Ascii.eqb c "+"%char then (false, s')
      else (false, s)
  | EmptyString => (false, s)
  end.

(** An exponent part [[eE][-+]?[0-9]+] at the start of [s]: the text
    it covers and its value; [None] when there is none. *)
Definition spanExponent (s : string) : option (string * Z) :=
  match s with
  | String c s' =>
      if Ascii.eqb c "e"%char || Ascii.eqb c "E"%char then
        let (negative, s2) := spanSign s' in
        let (d, _) := spanDigits s2 in
        if isEmpty d then None
        else
          let signText := substring 0 (length s' - length s2) s' in
          Some (String c (signText ++ d),
                if negative then (- digitsValue 0 d)%Z else digitsValue 0 d)
      else None
  | EmptyString => None
  end.

(** [parseFloat(s)]: leading white space is skipped, then the longest
    prefix that is a decimal literal (or a signed [Infinity]) is read;
    [NaN] when there is no such prefix. *)
Definition parseFloat (s : string) : Number :=
  let (negative, t) := spanSign (trimStart s) in
  if startsWith t "Infinity" then Infinity negative
  else
    let (ip, r1) := spanDigits t in
    let (fp, r3) :=
      match r1 with
      | String c r2 =>
          if Ascii.eqb c "."%char then spanDigits r2 else (EmptyString, r1)
      | EmptyString => (EmptyString, r1)
      end in
    if isEmpty ip && isEmpty fp then NaN
    else
      let e := match spanExponent r3 with Some (_, e) => e | None => 0%Z end in
      let mant := digitsValue 0 (ip ++ fp) in
      let q := decimalValue mant (e - Z.of_nat (length fp)) in
      Finite (if negative then Qopp q else q).

(** *** Number to text *)

Definition digitsOfZ (z : Z) : string :=
  NilZero.string_of_uint (N.to_uint (Z.to_N z)).

Fixpoint zeros (n : nat) : string :=
  match n with O => EmptyString | S n' => String "0"%char (zeros n') end.

(** The integer nearest to [q >= 0], the larger one on a tie. *)
Definition roundHalfUp (q : Q) : Z :=
  ((2 * Qnum q + Zpos (Qden q)) / (2 * Zpos (Qden q)))%Z.

(** Drops the zeros at the end of a digit string. *)
Fixpoint stripTrailingZeros (d : string) : string :=
  match d with
  | String c d' =>
      let t := stripTrailingZeros d' in
      if Ascii.eqb c "0"%char && isEmpty t then EmptyString else String c t
  | EmptyString => EmptyString
  end.

(** Exponential notation for [q >= 10^21], the branch of [toFixed]
    that defers to the default number-to-text conversion.  That
    conversion never prints more than 17 significant digits; here the
    exact value is rounded to 17 significant digits. *)
Definition toStringLarge (q : Q) : string :=
  let n := length (digitsOfZ (Qnum q / Zpos (Qden q))) in
  let s := roundHalfUp (q / inject_Z (10 ^ (Z.of_nat n - 17))) in
  let (s, n) := if (10 ^ 17 <=? s)%Z then ((s / 10)%Z, S n) else (s, n) in
  match digitsOfZ s with
  | String c d =>
      let frac := stripTrailingZeros d in
      String c (if isEmpty frac then EmptyString else String "."%char frac)
        ++ "e+" ++ digitsOfZ (Z.of_nat n - 1)
  | EmptyString => EmptyString
  end.

(** [x.toFixed(fractionDigits)]. *)
Definition toFixed (x : Number) (fractionDigits : nat) : string :=
  match x with
  | NaN => "NaN"
  | Infinity false => "Infinity"
  | Infinity true => "-Infinity"
  | Finite q =>
      let sign := if isNegativeQ q then "-" else EmptyString in
      let a := Qabs q in
      if Qle_bool (inject_Z (10 ^ 21)) a then sign ++ toStringLarge a
      else
        let n := roundHalfUp (a * inject_Z (10 ^ Z.of_nat fractionDigits)) in
        let m := digitsOfZ n in
        match fractionDigits with
        | O => sign ++ m
        | S _ =>
            let m := zeros (S fractionDigits - length m) ++ m in
            let k := length m in
            sign ++ substring 0 (k - fractionDigits) m ++ "."
                 ++ substring (k - fractionDigits) fractionDigits m
        end
  end.

(** *** The number pattern of [extractNumber] *)

(** A match of [/[-+]?[0-9]*\.?[0-9]+([eE][-+]?[0-9]+)?/] that starts at
    the first character of [s].  The sign is taken when there is one;
    then either digits, a dot and at least one digit, or (when no digit
    follows the dot, or there is no dot) at least one digit; then the
    exponent part when all of it is there. *)
Definition matchNumberAt (s : string) : option string :=
  let signText :=
    match s with
    | String c _ =>
        if Ascii.eqb c "-"%char || Ascii.eqb c "+"%char
        then String c EmptyString else EmptyString
    | EmptyString => EmptyString
    end in
  let t := snd (spanSign s) in
  let (ip, r1) := spanDigits t in
  let withExponent (body rest : string) : option string :=
    match spanExponent rest with
    | Some (text, _) => Some (signText ++ body ++ text)
    | None => Some (signText ++ body)
    end in
  let digitsOnly :=
    if isEmpty ip then None else withExponent ip r1 in
  match r1 with
  | String c r2 =>
      if Ascii.eqb c "."%char then
        let (fp, r3) := spanDigits r2 in
        if isEmpty fp then digitsOnly
        else withExponent (ip ++ String "."%char fp) r3
      else digitsOnly
  | EmptyString => digitsOnly
  end.

(** [s.match(re)[0]] for that pattern: the leftmost match. *)
Fixpoint matchNumber (s : string) : option string :=
  match matchNumberAt s with
  | Some m => Some m
  | None =>
      match s with
      | String _ s' => matchNumber s'
      | EmptyString => None
      end
  end.

(** The line end that [split] looks for in [content]. *)
Definition newline : string := String "010"%char EmptyString.

(** [s.split(',')]. *)
Fixpoint splitComma (s : string) : list string :=
  match s with
  | EmptyString => [EmptyString]
  | String c s' =>
      if Ascii.eqb c ","%char then EmptyString :: splitComma s'
      else consHead c (splitComma s')
  end.

(** [s.includes(p)]: [p] starts at some position of [s]. *)
Fixpoint includes (s p : string) : bool :=
  String.prefix p s ||
  match s with
  | String _ s' => includes s' p
  | EmptyString => false
  end.

(** Some character of [s] is a decimal digit. *)
Fixpoint hasDigit (s : string) : bool :=
  match s with
  | String c s' => isDigit c || hasDigit s'
  | EmptyString => false
  end.

(** A text that begins like a number: a digit, or a dot and a digit. *)
Definition numericStart (t : string) : bool :=
  match t with
  | String c r =>
      isDigit c ||
      (Ascii.eqb c "."%char &&
       match r with String c2 _ => isDigit c2 | EmptyString => false end)
  | EmptyString => false
  end.

End Js.

(** ** ZemaxParser (zemax-parser.js) *)

Module ZemaxParser.

Import Js.
Local Open Scope string_scope.
Local Open Scope bool_scope.

(** The accumulator object [currentSurface] of [parseZmxFormat]. *)
Module Cur.
Record t : Type := mk {
  number : Z;
  radius : Number;
  curvature : Number;
  diameter : Number;
  material : option string
}.
End Cur.

(** A surface object as the parser returns it.  [material] is [null]
    ([None]) in the records of [parseTextFormat]. *)
Module Row.
Record t : Type := mk {
  type : string;
  diameter : Number;
  rTestplate : Number;
  material : option string;
  fringes : string
}.
End Row.

(** Truthiness of a value that is a string or [null]. *)
Definition truthy (m : option string) : bool :=
  match m with
  | Some s => negb (isEmpty s)
  | None => false
  end.

(** [extractNumber(line)]. *)
Definition extractNumber (line : string) : option Number :=
  match matchNumber line with
  | Some text =>
      let num := parseFloat text in
      if isNaN num then None else Some num
  | None => None
  end.

(** [isValidSurface(surface)]. *)
Definition isValidSurface (surface : Cur.t) : bool :=
  strictNeq (Cur.radius surface) (ofZ 0) && gtb (Cur.diameter surface) (ofZ 0).

(** [determineSurfaceType(radius, material)]. *)
Definition determineSurfaceType (radius : Number) (material : option string)
    : string :=
  if truthy material then
    if gtb radius (ofZ 0) then "Convex" else "Concave"
  else
    if gtb radius (ofZ 0) then "Concave" else "Convex".

(** [formatSurface(surface)]. *)
Definition formatSurface (surface : Cur.t) : Row.t :=
  let type := determineSurfaceType (Cur.radius surface) (Cur.material surface) in
  {| Row.type := type;
     Row.diameter := abs (Cur.diameter surface);
     Row.rTestplate := abs (Cur.radius surface);
     Row.material :=
       if truthy (Cur.material surface) then Cur.material surface
       else Some EmptyString;
     Row.fringes := EmptyString |}.

(** [materialName.match(/^_+$/)]: one or more underscores, nothing else. *)
Fixpoint onlyUnderscores (s : string) : bool :=
  match s with
  | String c s' =>
      Ascii.eqb c "_"%char && (isEmpty s' || onlyUnderscores s')
  | EmptyString => false
  end.

(** [extractMaterial(line)]. *)
Definition extractMaterial (line : string) : option string :=
  let parts := splitWhitespace line in
  if (List.length parts <? 2)%nat then None
  else
    match nth_error parts 1 with
    | None => None
    | Some materialName =>
        if negb (isEmpty materialName)
           && negb (String.eqb materialName "___BLANK")
           && negb (onlyUnderscores materialName)
        then Some materialName
        else if String.eqb materialName "___BLANK" && (5 <=? List.length parts)%nat
        then
          match nth_error parts 4 with
          | None => None
          | Some text =>
              let index := parseFloat text in
              if negb (isNaN index) && gtb index (ofZ 1)
              then Some ("n=" ++ toFixed index 4)
              else None
          end
        else None
    end.

(** A line that starts a new surface. *)
Definition isSurfLine (rawLine : string) : bool :=
  startsWith (trim rawLine) "SURF ".

(** First pass of [parseZmxFormat]: [totalSurfaces]. *)
Definition countSurfaces (lines : list string) : nat :=
  fold_left (fun total l => if isSurfLine l then S total else total) lines O.

(** The state of the second pass; [emitted] is the array [surfaces]. *)
Record ZmxState (A : Type) : Type := mkZmxState {
  currentSurface : option Cur.t;
  surfaceNumber : Z;
  emitted : list A
}.
Arguments mkZmxState {A}.
Arguments currentSurface {A}.
Arguments surfaceNumber {A}.
Arguments emitted {A}.

(** The guarded [surfaces.push(...)] done at a surface boundary and
    after the loop; [fmt] is what is applied to the accumulator
    before the push ([formatSurface] in [parseZmxFormat]). *)
Definition pushIfKept {A : Type} (fmt : Cur.t -> A) (totalSurfaces : nat)
    (current : option Cur.t) (surfaces : list A) : list A :=
  match current with
  | Some cur =>
      if isValidSurface cur then
        if (0 <? Cur.number cur)%Z
           && (Cur.number cur <? Z.of_nat totalSurfaces - 1)%Z
        then (surfaces ++ [fmt cur])%list
        else surfaces
      else surfaces
  | None => surfaces
  end.

(** The [SURF] block of the loop body. *)
Definition onSurf {A : Type} (fmt : Cur.t -> A) (totalSurfaces : nat)
    (line : string) (st : ZmxState A) : ZmxState A :=
  if startsWith line "SURF " then
    let n := (surfaceNumber st + 1)%Z in
    mkZmxState
      (Some (Cur.mk n (ofZ 0) (ofZ 0) (ofZ 0) None))
      n
      (pushIfKept fmt totalSurfaces (currentSurface st) (emitted st))
  else st.

(** The [CURV] block: curvature, and the radius as its reciprocal. *)
Definition onCurv (line : string) (cur : Cur.t) : Cur.t :=
  if startsWith line "CURV " then
    match extractNumber line with
    | Some curvature =>
        let cur1 := Cur.mk (Cur.number cur) (Cur.radius cur) curvature
                      (Cur.diameter cur) (Cur.material cur) in
        if strictNeq curvature (ofZ 0) then
          Cur.mk (Cur.number cur1) (div (ofZ 1) curvature) (Cur.curvature cur1)
            (Cur.diameter cur1) (Cur.material cur1)
        else cur1
    | None => cur
    end
  else cur.

(** The [DIAM] block: the value is a semi-diameter. *)
Definition onDiam (line : string) (cur : Cur.t) : Cur.t :=
  if startsWith line "DIAM " then
    match extractNumber line with
    | Some semiDiameter =>
        if gtb semiDiameter (ofZ 0) then
          Cur.mk (Cur.number cur) (Cur.radius cur) (Cur.curvature cur)
            (mul semiDiameter (ofZ 2)) (Cur.material cur)
        else cur
    | None => cur
    end
  else cur.

(** The [GLAS] block. *)
Definition onGlas (line : string) (cur : Cur.t) : Cur.t :=
  if startsWith line "GLAS " then
    let material := extractMaterial line in
    if truthy material then
      Cur.mk (Cur.number cur) (Cur.radius cur) (Cur.curvature cur)
        (Cur.diameter cur) material
    else cur
  else cur.

(** One iteration of the second loop. *)
Definition zmxStep {A : Type} (fmt : Cur.t -> A) (totalSurfaces : nat)
    (st : ZmxState A) (rawLine : string) : ZmxState A :=
  let line := trim rawLine in
  let st1 := onSurf fmt totalSurfaces line st in
  match currentSurface st1 with
  | Some cur =>
      mkZmxState (Some (onGlas line (onDiam line (onCurv line cur))))
        (surfaceNumber st1) (emitted st1)
  | None => st1
  end.

(** Both passes and the final push, with the pushed value left open. *)
Definition parseZmxWith {A : Type} (fmt : Cur.t -> A) (content : string)
    : list A :=
  let lines := splitNewline content in
  let totalSurfaces := countSurfaces lines in
  let st := fold_left (zmxStep fmt totalSurfaces) lines
              (mkZmxState None (-1)%Z []) in
  pushIfKept fmt totalSurfaces (currentSurface st) (emitted st).

(** [parseZmxFormat(content)]. *)
Definition parseZmxFormat (content : string) : list Row.t :=
  parseZmxWith formatSurface content.

(** The accumulators that reach [surfaces.push] in [parseZmxFormat],
    each with the index [number] of its surface. *)
Definition keptSurfaces (content : string) : list Cur.t :=
  parseZmxWith (fun cur => cur) content.

(** The body of the loop of [parseTextFormat]: the records one line adds. *)
Definition textLine (rawLine : string) : list Row.t :=
  let trimmed := trim rawLine in
  if isEmpty trimmed || startsWith trimmed "#" || startsWith trimmed "//"
  then []
  else
    let parts := splitWhitespace trimmed in
    if (3 <=? List.length parts)%nat then
      match nth_error parts 1, nth_error parts 2 with
      | Some p1, Some p2 =>
          let radius := parseFloat p1 in
          let diameter := parseFloat p2 in
          if negb (isNaN radius) && negb (isNaN diameter)
             && strictNeq radius (ofZ 0) && gtb diameter (ofZ 0)
          then [ {| Row.type := determineSurfaceType radius None;
                    Row.diameter := diameter;
                    Row.rTestplate := abs radius;
                    Row.material := None;
                    Row.fringes := EmptyString |} ]
          else []
      | _, _ => []
      end
    else [].

(** [parseTextFormat(content)]. *)
Definition parseTextFormat (content : string) : list Row.t :=
  fold_left (fun surfaces l => (surfaces ++ textLine l)%list)
    (splitNewline content) [].

(** [parse(content)]. *)
Definition parse (content : string) : list Row.t :=
  let surfaces := [] in
  let zmxSurfaces := parseZmxFormat content in
  if (0 <? List.length zmxSurfaces)%nat then zmxSurfaces
  else
    let txtSurfaces := parseTextFormat content in
    if (0 <? List.length txtSurfaces)%nat then txtSurfaces
    else surfaces.

(** The body of the loop of [parseCSV]: the records one line adds.  The
    object handed to [formatSurface] has the fields [radius],
    [diameter] and [material] only; the two fields of the accumulator
    record that [formatSurface] does not read are filled with 0. *)
Definition csvLine (rawLine : string) : list Row.t :=
  let line := trim rawLine in
  if isEmpty line then []
  else
    let parts := splitComma line in
    if (2 <=? List.length parts)%nat then
      match nth_error parts 0, nth_error parts 1 with
      | Some p0, Some p1 =>
          let radius := parseFloat p0 in
          let diameter := parseFloat p1 in
          if negb (isNaN radius) && negb (isNaN diameter)
             && strictNeq radius (ofZ 0) && gtb diameter (ofZ 0)
          then [formatSurface (Cur.mk 0 radius (ofZ 0) diameter None)]
          else []
      | _, _ => []
      end
    else [].

(** [parseCSV(content)]: the loop starts at the second line. *)
Definition parseCSV (content : string) : list Row.t :=
  fold_left (fun surfaces l => (surfaces ++ csvLine l)%list)
    (tl (splitNewline content)) [].

(** [detectFormat(content)]. *)
Definition detectFormat (content : string) : string :=
  if includes content "SURF"
     && (includes content "CURV" || includes content "RADIUS")
  then "zmx"
  else if includes content "," then "csv"
  else "text".

(** A record a caller can use: a diameter and a testplate radius above
    0 and one of the two type names. *)
Definition rowOk (row : Row.t) : Prop :=
  gtb (Row.diameter row) (ofZ 0) = true /\
  gtb (Row.rTestplate row) (ofZ 0) = true /\
  (Row.type row = "Convex" \/ Row.type row = "Concave").

(** The second-pass facts behind [rowOk]: the radius of an accumulator
    is never [NaN], and what was kept passed [isValidSurface]. *)
Definition zmxSound (st : ZmxState Cur.t) : Prop :=
  Forall (fun cur => isValidSurface cur = true /\ isNaN (Cur.radius cur) = false)
         (emitted st) /\
  (forall cur, currentSurface st = Some cur -> isNaN (Cur.radius cur) = false).

(** The kept accumulators are in file order: indices grow strictly and
    stay below the running index. *)
Definition zmxOrdered (st : ZmxState Cur.t) : Prop :=
  StronglySorted Z.lt (map Cur.number (emitted st)) /\
  Forall (fun cur => (Cur.number cur < surfaceNumber st)%Z) (emitted st) /\
  (forall cur, currentSurface st = Some cur -> Cur.number cur = surfaceNumber st).

(** A radius other than 0, or a kept accumulator, needs the fact [F]
    (below: that some line begins with [CURV]). *)
Definition zmxNeeds (F : Prop) (st : ZmxState Cur.t) : Prop :=
  (forall cur, currentSurface st = Some cur ->
     strictNeq (Cur.radius cur) (ofZ 0) = true -> F) /\
  (emitted st <> [] -> F).

(** Two sample prescriptions.  In each, every surface has a curvature
    and a semi-diameter that pass [isValidSurface]. *)
Definition oneSurfaceFile : string :=
"SURF 0
  CURV 0.01 0 0 0 0
  DIAM 5 0 0 0 1
".

Definition threeSurfaceFile : string :=
"SURF 0
  CURV 0.01 0 0 0 0
  DIAM 5 0 0 0 1
SURF 1
  CURV -0.02 0 0 0 0
  GLAS N-BK7 0 0 1.5 40
  DIAM 12.5 0 0 0 1
SURF 2
  CURV 0.05 0 0 0 0
  DIAM 3 0 0 0 1
".

(** A state of the loop seen through the formatting function. *)
Definition formatState {A : Type} (fmt : Cur.t -> A) (st : ZmxState Cur.t)
    : ZmxState A :=
  mkZmxState (currentSurface st) (surfaceNumber st) (map fmt (emitted st)).

(** The invariant of the second pass: every kept accumulator has an
    index strictly between 0 and [total - 1], the open accumulator
    carries the running index, and no more accumulators were kept than
    there are indices below the running one and below [total - 1]. *)
Definition zmxInv (total : nat) (st : ZmxState Cur.t) : Prop :=
  Forall (fun cur => (0 < Cur.number cur < Z.of_nat total - 1)%Z) (emitted st) /\
  (forall cur, currentSurface st = Some cur -> Cur.number cur = surfaceNumber st) /\
  (Z.of_nat (List.length (emitted st))
   <= Z.max 0 (Z.min (surfaceNumber st - 1) (Z.of_nat total - 2)))%Z.

(** A line with three or more white-space-separated tokens whose second
    and third tokens read as a radius that is not zero and a diameter
    above zero. *)
Definition threeTokenLine (rawLine : string) : Prop :=
  exists p0 p1 p2 rest,
    splitWhitespace (trim rawLine) = p0 :: p1 :: p2 :: rest /\
    isNaN (parseFloat p1) = false /\
    strictNeq (parseFloat p1) (ofZ 0) = true /\
    gtb (parseFloat p2) (ofZ 0) = true.

(** A comment line of the text format: it begins, after trimming, with
    [#] or [//]. *)
Definition isCommentLine (rawLine : string) : bool :=
  startsWith (trim rawLine) "#" || startsWith (trim rawLine) "//".

End ZemaxParser.

(** ** Properties of the calculator *)

Section CalculationsFacts.

Import Calculations.
Local Open Scope R_scope.

Lemma testplateSag_regular (r d : R) :
  ~ (r = 0 \/ d = 0 \/ r * r < (d / 2) * (d / 2)) ->
  calculateTestplateSag r d = Rabs r - sqrt (r * r - (d / 2) * (d / 2)).
Proof.
  intros H. unfold calculateTestplateSag.
  destruct (Req_dec_T r 0) as [Hr|Hr]; [exfalso; apply H; now left|].
  destruct (Req_dec_T d 0) as [Hd|Hd]; [exfalso; apply H; right; now left|].
  destruct (Rlt_dec (r * r) (d / 2 * (d / 2))) as [Hlt|Hlt];
    [exfalso; apply H; right; now right|].
  reflexivity.
Qed.

(** The worked example: its testplate sag is [33 - sqrt 864]. *)
Lemma example_sagTestplate :
  calculateTestplateSag 33 30 = 33 - sqrt 864.
Proof.
  rewrite testplateSag_regular.
  - rewrite Rabs_pos_eq by lra. f_equal. f_equal. lra.
  - intros [H | [H | H]]; lra.
Qed.

Lemma sqrt_864_bounds : 29.393876 < sqrt 864 < 29.393877.
Proof.
  split.
  - apply Rle_lt_trans with (sqrt (29.393876 * 29.393876)).
    + rewrite sqrt_square; lra.
    + apply sqrt_lt_1_alt. lra.
  - apply Rlt_le_trans with (sqrt (29.393877 * 29.393877)).
    + apply sqrt_lt_1_alt. lra.
    + rewrite sqrt_square; lra.
Qed.

Lemma example_sagTestplate_bounds :
  3.606123 < calculateTestplateSag 33 30 < 3.606124.
Proof.
  rewrite example_sagTestplate. pose proof sqrt_864_bounds. lra.
Qed.

(** C2, as stated, fails: the testplate sag of
    [calculateSurface('Convex', 30.0, 33.0, 5, 632.8)] is not within 0.1
    of 3.47106. *)
Lemma calculateSurface_example_sag_not_3_47106 :
  ~ Rabs (sagTestplate (calculateSurface "Convex" 30 33 5 632.8) - 3.47106) < 0.1.
Proof.
  simpl. pose proof example_sagTestplate_bounds as [Hlo _].
  rewrite Rabs_pos_eq by lra. lra.
Qed.

(** C2, amended.  [calculateSurface('Convex', 30.0, 33.0, 5, 632.8)]
    has testplate sag 3.60612 (to within 0.00001), fringe sag exactly
    5 * (632.8 / 1000000) / 2 = 0.001582, actual sag equal to their sum,
    and a strictly positive actual radius. *)
Theorem calculateSurface_example :
  let s := calculateSurface "Convex" 30 33 5 632.8 in
  Rabs (sagTestplate s - 3.60612) < 0.00001 /\
  sagAdded s = 5 * (632.8 / 1000000) / 2 /\
  sagAdded s = 0.001582 /\
  sagActual s = sagTestplate s + sagAdded s /\
  0 < rActual s.
Proof.
  cbv zeta. simpl sagTestplate. simpl sagAdded. simpl sagActual. simpl rActual.
  pose proof example_sagTestplate_bounds as [Hlo Hhi].
  assert (calculateFringeSag 5 632.8 = 0.001582) as Hf
    by (unfold calculateFringeSag; lra).
  split; [apply Rabs_def1; lra|].
  split; [reflexivity|].
  split; [exact Hf|].
  split; [reflexivity|].
  unfold calculateActualSag. simpl String.eqb. rewrite Hf.
  set (z := calculateTestplateSag 33 30 + 0.001582).
  assert (0 < z) as Hz by (unfold z; lra).
  unfold calculateActualRadius. simpl String.eqb.
  destruct (Req_dec_T z 0); [lra|].
  destruct (Req_dec_T 30 0); [lra|].
  apply Rabs_pos_lt.
  apply Rmult_integral_contrapositive_currified.
  - pose proof (Rle_0_sqr z) as H2. unfold Rsqr in H2. lra.
  - apply Rinv_neq_0_compat. lra.
Qed.

End CalculationsFacts.

(** ** Properties of the parser *)

Section ZemaxParserFacts.

Import Js ZemaxParser.
Local Open Scope string_scope.

(** *** Surface type *)

Lemma ltb_asym (x y : Number) : ltb x y = true -> ltb y x = false.
Proof.
  destruct x as [|[|]|p], y as [|[|]|q]; simpl; try discriminate; try reflexivity.
  intros H. apply negb_true_iff in H. apply negb_false_iff.
  apply Qle_bool_iff.
  destruct (Qlt_le_dec p q) as [Hlt|Hle].
  - apply Qlt_le_weak. exact Hlt.
  - apply Qle_bool_iff in Hle. congruence.
Qed.

Lemma truthy_named (name : string) : name <> EmptyString -> truthy (Some name) = true.
Proof. destruct name; [congruence | reflexivity]. Qed.

(** C5.  The surface type is the two-by-two table: with a material, a
    radius above zero gives Convex and one below zero Concave; with no
    material, a radius above zero gives Concave and one below zero
    Convex. *)
Theorem determineSurfaceType_table (r : Number) (name : string) :
  name <> EmptyString ->
  (gtb r (ofZ 0) = true -> determineSurfaceType r (Some name) = "Convex") /\
  (ltb r (ofZ 0) = true -> determineSurfaceType r (Some name) = "Concave") /\
  (gtb r (ofZ 0) = true -> determineSurfaceType r None = "Concave") /\
  (ltb r (ofZ 0) = true -> determineSurfaceType r None = "Convex").
Proof.
  intros Hname. unfold determineSurfaceType.
  rewrite (truthy_named name Hname). simpl truthy.
  repeat split; intros H.
  - now rewrite H.
  - apply ltb_asym in H. unfold gtb. now rewrite H.
  - now rewrite H.
  - apply ltb_asym in H. unfold gtb. now rewrite H.
Qed.

Lemma determineSurfaceType_table_witness :
  determineSurfaceType (Finite 50) (Some "N-BK7") = "Convex" /\
  determineSurfaceType (Finite (-50)) (Some "N-BK7") = "Concave" /\
  determineSurfaceType (Finite 50) None = "Concave" /\
  determineSurfaceType (Finite (-50)) None = "Convex".
Proof.
  assert ("N-BK7" <> EmptyString) as Hname by discriminate.
  destruct (determineSurfaceType_table (Finite 50) "N-BK7" Hname)
    as (H1 & _ & H3 & _).
  destruct (determineSurfaceType_table (Finite (-50)) "N-BK7" Hname)
    as (_ & H2 & _ & H4).
  split; [apply H1; reflexivity|].
  split; [apply H2; reflexivity|].
  split; [apply H3; reflexivity | apply H4; reflexivity].
Defined.

(** *** The text format *)

(** C1, as stated, fails: the record read from [S1 -50.0 25.4] is not
    of type Concave. *)
Lemma parseTextFormat_S1_not_Concave :
  ~ (exists row,
       parseTextFormat "S1 -50.0 25.4" = [row] /\
       sameValue (Row.diameter row) (Finite 25.4) /\
       sameValue (Row.rTestplate row) (Finite 50.0) /\
       Row.type row = "Concave").
Proof.
  intros (row & Hrow & _ & _ & Htype).
  vm_compute in Hrow. injection Hrow as <-.
  simpl in Htype. discriminate.
Qed.

(** C1, amended.  [parseTextFormat] turns the line [S1 -50.0 25.4] into
    exactly one record, with diameter 25.4, testplate radius 50.0, no
    material, and type Convex (no material and a radius below zero). *)
Theorem parseTextFormat_S1 :
  exists row,
    parseTextFormat "S1 -50.0 25.4" = [row] /\
    sameValue (Row.diameter row) (Finite 25.4) /\
    sameValue (Row.rTestplate row) (Finite 50.0) /\
    Row.material row = None /\
    Row.type row = "Convex".
Proof.
  eexists. split; [vm_compute; reflexivity|].
  simpl. repeat split; reflexivity.
Qed.

(** *** Materials *)

(** C7.  On a GLAS line whose tokens begin [GLAS ___BLANK 1 0 1.52] the
    material is [n=1.5200]; on one whose tokens begin [GLAS N-BK7] it is
    [N-BK7].  In general, with [___BLANK] as second token and a fifth
    token present, the fifth token is read as a number and accepted only
    when it is a number above 1, and the label is then [n=] followed by
    that number with 4 decimals; with fewer than five tokens there is no
    material. *)
Theorem extractMaterial_glas (line : string) (rest : list string) :
  (splitWhitespace line = "GLAS" :: "___BLANK" :: "1" :: "0" :: "1.52" :: rest ->
     extractMaterial line = Some "n=1.5200") /\
  (splitWhitespace line = "GLAS" :: "N-BK7" :: rest ->
     extractMaterial line = Some "N-BK7") /\
  (forall p0 p2 p3 p4 : string,
     splitWhitespace line = p0 :: "___BLANK" :: p2 :: p3 :: p4 :: rest ->
     extractMaterial line =
       if negb (isNaN (parseFloat p4)) && gtb (parseFloat p4) (ofZ 1)
       then Some ("n=" ++ toFixed (parseFloat p4) 4)
       else None) /\
  (forall p0 : string,
     splitWhitespace line = p0 :: "___BLANK" :: rest ->
     (List.length rest < 3)%nat ->
     extractMaterial line = None).
Proof.
  unfold extractMaterial.
  split; [|split; [|split]].
  - intros ->. reflexivity.
  - intros ->. reflexivity.
  - intros p0 p2 p3 p4 ->. reflexivity.
  - intros p0 -> Hlen.
    destruct rest as [|a [|b [|c rest']]]; try reflexivity.
    simpl in Hlen. lia.
Qed.

Lemma extractMaterial_glas_witness :
  extractMaterial "GLAS ___BLANK 1 0 1.52 0 0" = Some "n=1.5200" /\
  extractMaterial "GLAS N-BK7 0 0 1.5 40" = Some "N-BK7" /\
  extractMaterial "GLAS ___BLANK 1 0 0.98" = None /\
  extractMaterial "GLAS ___BLANK 1 0" = None.
Proof.
  split; [|split; [|split]].
  - apply (proj1 (extractMaterial_glas "GLAS ___BLANK 1 0 1.52 0 0" ["0"; "0"])).
    reflexivity.
  - apply (proj1 (proj2 (extractMaterial_glas "GLAS N-BK7 0 0 1.5 40"
                           ["0"; "0"; "1.5"; "40"]))).
    reflexivity.
  - rewrite (proj1 (proj2 (proj2 (extractMaterial_glas "GLAS ___BLANK 1 0 0.98" [])))
               "GLAS" "1" "0" "0.98" eq_refl).
    reflexivity.
  - apply (proj2 (proj2 (proj2 (extractMaterial_glas "GLAS ___BLANK 1 0" ["1"; "0"])))
             "GLAS" eq_refl).
    simpl. lia.
Defined.

(** *** The structured format: both passes *)

Lemma countSurfaces_from (lines : list string) (acc : nat) :
  fold_left (fun total l => if isSurfLine l then S total else total) lines acc
  = (acc + List.length (filter isSurfLine lines))%nat.
Proof.
  revert acc. induction lines as [|l lines IH]; intros acc; simpl.
  - lia.
  - rewrite IH. destruct (isSurfLine l); simpl; lia.
Qed.

Lemma countSurfaces_filter (lines : list string) :
  countSurfaces lines = List.length (filter isSurfLine lines).
Proof. unfold countSurfaces. now rewrite countSurfaces_from. Qed.

Lemma countSurfaces_zero (lines : list string) :
  countSurfaces lines = O -> Forall (fun l => isSurfLine l = false) lines.
Proof.
  rewrite countSurfaces_filter.
  induction lines as [|l lines IH]; simpl; intros H; constructor.
  - destruct (isSurfLine l); [discriminate | reflexivity].
  - apply IH. destruct (isSurfLine l); [discriminate | exact H].
Qed.

(** The field blocks leave the index of the accumulator alone. *)
Lemma onCurv_number (line : string) (cur : Cur.t) :
  Cur.number (onCurv line cur) = Cur.number cur.
Proof.
  unfold onCurv. destruct (startsWith line "CURV "); [|reflexivity].
  destruct (extractNumber line) as [c|]; [|reflexivity].
  destruct (strictNeq c (ofZ 0)); reflexivity.
Qed.

Lemma onDiam_number (line : string) (cur : Cur.t) :
  Cur.number (onDiam line cur) = Cur.number cur.
Proof.
  unfold onDiam. destruct (startsWith line "DIAM "); [|reflexivity].
  destruct (extractNumber line) as [d|]; [|reflexivity].
  destruct (gtb d (ofZ 0)); reflexivity.
Qed.

Lemma onGlas_number (line : string) (cur : Cur.t) :
  Cur.number (onGlas line cur) = Cur.number cur.
Proof.
  unfold onGlas. destruct (startsWith line "GLAS "); [|reflexivity].
  destruct (truthy (extractMaterial line)); reflexivity.
Qed.

(** What a guarded push can do: nothing, or append an accumulator whose
    index is strictly between 0 and [totalSurfaces - 1]. *)
Lemma pushIfKept_cases {A : Type} (fmt : Cur.t -> A) (total : nat)
    (current : option Cur.t) (surfaces : list A) :
  pushIfKept fmt total current surfaces = surfaces \/
  exists cur, current = Some cur /\
    (0 < Cur.number cur < Z.of_nat total - 1)%Z /\
    pushIfKept fmt total current surfaces = (surfaces ++ [fmt cur])%list.
Proof.
  unfold pushIfKept. destruct current as [cur|]; [|now left].
  destruct (isValidSurface cur); [|now left].
  destruct (0 <? Cur.number cur)%Z eqn:H0; [|now left].
  destruct (Cur.number cur <? Z.of_nat total - 1)%Z eqn:H1; [|now left].
  right. exists cur. simpl.
  apply Z.ltb_lt in H0. apply Z.ltb_lt in H1. repeat split; assumption.
Qed.

Lemma pushIfKept_map {A : Type} (fmt : Cur.t -> A) (total : nat)
    (current : option Cur.t) (kept : list Cur.t) :
  pushIfKept fmt total current (map fmt kept)
  = map fmt (pushIfKept (fun cur => cur) total current kept).
Proof.
  unfold pushIfKept. destruct current as [cur|]; [|reflexivity].
  destruct (isValidSurface cur); [|reflexivity].
  destruct ((0 <? Cur.number cur)%Z && (Cur.number cur <? Z.of_nat total - 1)%Z);
    [|reflexivity].
  now rewrite map_app.
Qed.

Lemma zmxStep_map {A : Type} (fmt : Cur.t -> A) (total : nat)
    (st : ZmxState Cur.t) (rawLine : string) :
  zmxStep fmt total (formatState fmt st) rawLine
  = formatState fmt (zmxStep (fun cur => cur) total st rawLine).
Proof.
  unfold zmxStep, onSurf.
  destruct (startsWith (trim rawLine) "SURF "); simpl.
  - unfold formatState. simpl. now rewrite pushIfKept_map.
  - destruct (currentSurface st); reflexivity.
Qed.

Lemma zmxLoop_map {A : Type} (fmt : Cur.t -> A) (total : nat)
    (lines : list string) (st : ZmxState Cur.t) :
  fold_left (zmxStep fmt total) lines (formatState fmt st)
  = formatState fmt (fold_left (zmxStep (fun cur => cur) total) lines st).
Proof.
  revert st. induction lines as [|l lines IH]; intros st; simpl.
  - reflexivity.
  - rewrite zmxStep_map. apply IH.
Qed.

(** The records of [parseZmxFormat] are the kept accumulators,
    formatted, in the same order. *)
Lemma parseZmxFormat_keptSurfaces (content : string) :
  parseZmxFormat content = map formatSurface (keptSurfaces content).
Proof.
  unfold parseZmxFormat, keptSurfaces, parseZmxWith.
  set (lines := splitNewline content).
  set (total := countSurfaces lines).
  change (mkZmxState None (-1)%Z (@nil Row.t))
    with (formatState formatSurface (mkZmxState None (-1)%Z [])).
  rewrite zmxLoop_map. simpl. apply pushIfKept_map.
Qed.

Lemma zmxInv_init (total : nat) : zmxInv total (mkZmxState None (-1)%Z []).
Proof.
  unfold zmxInv. simpl. repeat split.
  - constructor.
  - discriminate.
  - lia.
Qed.

Lemma zmxInv_step (total : nat) (st : ZmxState Cur.t) (rawLine : string) :
  zmxInv total st -> zmxInv total (zmxStep (fun cur => cur) total st rawLine).
Proof.
  intros (Hall & Hcur & Hlen).
  assert (zmxInv total (onSurf (fun cur => cur) total (trim rawLine) st)) as H1.
  { unfold onSurf. destruct (startsWith (trim rawLine) "SURF ").
    - unfold zmxInv. simpl.
      destruct (pushIfKept_cases (fun cur => cur) total (currentSurface st) (emitted st))
        as [-> | (cur & Hc & Hrange & ->)].
      + repeat split.
        * exact Hall.
        * now intros cur [= <-].
        * lia.
      + specialize (Hcur cur Hc). repeat split.
        * apply Forall_app. split; [exact Hall|]. now constructor.
        * now intros cur' [= <-].
        * rewrite length_app. simpl. lia.
    - unfold zmxInv. repeat split; assumption. }
  unfold zmxStep.
  destruct H1 as (Hall1 & Hcur1 & Hlen1).
  destruct (currentSurface (onSurf (fun cur => cur) total (trim rawLine) st))
    as [cur|] eqn:Hc.
  - unfold zmxInv. simpl. repeat split.
    + exact Hall1.
    + intros cur' [= <-].
      rewrite onGlas_number, onDiam_number, onCurv_number. now apply Hcur1.
    + exact Hlen1.
  - unfold zmxInv. rewrite Hc. repeat split.
    + exact Hall1.
    + discriminate.
    + exact Hlen1.
Qed.

Lemma zmxInv_loop (total : nat) (lines : list string) (st : ZmxState Cur.t) :
  zmxInv total st ->
  zmxInv total (fold_left (zmxStep (fun cur => cur) total) lines st).
Proof.
  revert st. induction lines as [|l lines IH]; intros st H; simpl.
  - exact H.
  - apply IH. now apply zmxInv_step.
Qed.

Lemma keptSurfaces_range (content : string) :
  Forall (fun cur =>
            (0 < Cur.number cur
             < Z.of_nat (countSurfaces (splitNewline content)) - 1)%Z)
         (keptSurfaces content) /\
  (List.length (keptSurfaces content)
   <= countSurfaces (splitNewline content) - 2)%nat.
Proof.
  unfold keptSurfaces, parseZmxWith.
  set (lines := splitNewline content).
  set (total := countSurfaces lines).
  destruct (zmxInv_loop total lines _ (zmxInv_init total)) as (Hall & Hcur & Hlen).
  set (st := fold_left (zmxStep (fun cur => cur) total) lines
               (mkZmxState None (-1)%Z [])) in *.
  destruct (pushIfKept_cases (fun cur => cur) total (currentSurface st) (emitted st))
    as [-> | (cur & Hc & Hrange & ->)].
  - split; [exact Hall | lia].
  - specialize (Hcur cur Hc). split.
    + apply Forall_app. split; [exact Hall|]. now constructor.
    + rewrite length_app. simpl. lia.
Qed.

Lemma keptSurfaces_bound (content : string) :
  (Z.of_nat (List.length (keptSurfaces content))
   <= Z.max 0 (Z.of_nat (countSurfaces (splitNewline content)) - 2))%Z.
Proof. destruct (keptSurfaces_range content) as [_ Hlen]. lia. Qed.

(** C4, as stated, fails for fewer than two surfaces: a file with one
    line that starts a surface (N = 1) gives no record, and 0 is not
    at most N - 2 = -1. *)
Lemma parseZmxFormat_one_surface :
  countSurfaces (splitNewline oneSurfaceFile) = 1%nat /\
  parseZmxFormat oneSurfaceFile = [] /\
  ~ (Z.of_nat (List.length (parseZmxFormat oneSurfaceFile))
     <= Z.of_nat (countSurfaces (splitNewline oneSurfaceFile)) - 2)%Z.
Proof.
  split; [reflexivity|]. split; [reflexivity|].
  vm_compute. intros H. apply H. reflexivity.
Qed.

(** C4, amended.  With N lines that start a surface, [parseZmxFormat]
    returns at most N - 2 records when N is 2 or more and none
    otherwise, that is at most max (N - 2) 0: its records are the kept
    accumulators, formatted, and every kept accumulator has an index
    strictly between 0 and N - 1.  So the surfaces at index 0 and at
    index N - 1 never reach the result, whatever their radius and
    diameter. *)
Theorem parseZmxFormat_endpoints_excluded (content : string) :
  (Z.of_nat (List.length (parseZmxFormat content))
   <= Z.max 0 (Z.of_nat (countSurfaces (splitNewline content)) - 2))%Z /\
  parseZmxFormat content = map formatSurface (keptSurfaces content) /\
  Forall (fun cur =>
            Cur.number cur <> 0%Z /\
            Cur.number cur
              <> (Z.of_nat (countSurfaces (splitNewline content)) - 1)%Z /\
            (0 < Cur.number cur
             < Z.of_nat (countSurfaces (splitNewline content)) - 1)%Z)
         (keptSurfaces content).
Proof.
  destruct (keptSurfaces_range content) as [Hall _].
  split; [|split].
  - rewrite parseZmxFormat_keptSurfaces, length_map. apply keptSurfaces_bound.
  - apply parseZmxFormat_keptSurfaces.
  - eapply Forall_impl; [|exact Hall].
    intros cur H. simpl in H. repeat split; lia.
Qed.

(** The running index counts the lines that start a surface: the k-th
    such line (from 0) opens the accumulator with [number] k, and the
    accumulator left open at the end of the file has index N - 1. *)
Lemma zmxStep_surfaceNumber {A : Type} (fmt : Cur.t -> A) (total : nat)
    (st : ZmxState A) (rawLine : string) :
  surfaceNumber (zmxStep fmt total st rawLine)
  = (surfaceNumber st + if isSurfLine rawLine then 1 else 0)%Z.
Proof.
  unfold zmxStep, onSurf, isSurfLine.
  destruct (startsWith (trim rawLine) "SURF "); simpl.
  - reflexivity.
  - destruct (currentSurface st); simpl; lia.
Qed.

Lemma zmxLoop_surfaceNumber {A : Type} (fmt : Cur.t -> A) (total : nat)
    (lines : list string) (st : ZmxState A) :
  surfaceNumber (fold_left (zmxStep fmt total) lines st)
  = (surfaceNumber st + Z.of_nat (countSurfaces lines))%Z.
Proof.
  rewrite countSurfaces_filter.
  revert st. induction lines as [|l lines IH]; intros st; simpl.
  - lia.
  - rewrite IH, zmxStep_surfaceNumber.
    destruct (isSurfLine l); cbn [List.length]; lia.
Qed.

Lemma zmxLoop_last_index (content : string) :
  surfaceNumber
    (fold_left (zmxStep formatSurface (countSurfaces (splitNewline content)))
       (splitNewline content) (mkZmxState None (-1)%Z []))
  = (Z.of_nat (countSurfaces (splitNewline content)) - 1)%Z.
Proof. rewrite zmxLoop_surfaceNumber. cbn [surfaceNumber]. lia. Qed.

(** In [threeSurfaceFile] all three surfaces pass the validity test;
    only the middle one is returned. *)
Example parseZmxFormat_three_surfaces :
  countSurfaces (splitNewline threeSurfaceFile) = 3%nat /\
  map Cur.number (keptSurfaces threeSurfaceFile) = [1%Z] /\
  map Row.type (parseZmxFormat threeSurfaceFile) = ["Concave"] /\
  map Row.material (parseZmxFormat threeSurfaceFile) = [Some "N-BK7"].
Proof. vm_compute. repeat split. Qed.

(** *** The dispatcher *)

Lemma zmxStep_idle {A : Type} (fmt : Cur.t -> A) (total : nat)
    (st : ZmxState A) (rawLine : string) :
  isSurfLine rawLine = false -> currentSurface st = None ->
  zmxStep fmt total st rawLine = st.
Proof.
  unfold isSurfLine, zmxStep, onSurf. intros -> Hc. now rewrite Hc.
Qed.

Lemma zmxLoop_idle {A : Type} (fmt : Cur.t -> A) (total : nat)
    (lines : list string) (st : ZmxState A) :
  Forall (fun l => isSurfLine l = false) lines -> currentSurface st = None ->
  fold_left (zmxStep fmt total) lines st = st.
Proof.
  intros Hall Hc. induction Hall as [|l lines Hl _ IH]; simpl.
  - reflexivity.
  - rewrite (zmxStep_idle fmt total st l Hl Hc). exact IH.
Qed.

(** Without a line that starts a surface the structured pass returns
    nothing. *)
Lemma parseZmxFormat_no_marker (content : string) :
  countSurfaces (splitNewline content) = O -> parseZmxFormat content = [].
Proof.
  intros H0. unfold parseZmxFormat, parseZmxWith.
  rewrite zmxLoop_idle; [reflexivity | | reflexivity].
  now apply countSurfaces_zero.
Qed.

Lemma textLoop_from (lines : list string) (acc : list Row.t) :
  fold_left (fun surfaces l => (surfaces ++ textLine l)%list) lines acc
  = (acc ++ flat_map textLine lines)%list.
Proof.
  revert acc. induction lines as [|l lines IH]; intros acc; simpl.
  - now rewrite app_nil_r.
  - rewrite IH. now rewrite app_assoc.
Qed.

Lemma parseTextFormat_flat_map (content : string) :
  parseTextFormat content = flat_map textLine (splitNewline content).
Proof. unfold parseTextFormat. now rewrite textLoop_from. Qed.

(** A three-token line that is not a comment adds one record. *)
Lemma textLine_accepts (rawLine : string) :
  threeTokenLine rawLine -> isCommentLine rawLine = false ->
  exists row, textLine rawLine = [row].
Proof.
  intros (p0 & p1 & p2 & rest & Hparts & Hnan & Hne & Hgt) Hcomment.
  unfold isCommentLine in Hcomment. apply orb_false_elim in Hcomment.
  destruct Hcomment as [Hhash Hslash].
  unfold textLine. rewrite Hhash, Hslash.
  assert (isEmpty (trim rawLine) = false) as ->.
  { destruct (trim rawLine); [discriminate Hparts | reflexivity]. }
  assert (isNaN (parseFloat p2) = false) as Hnan2.
  { destruct (parseFloat p2); [discriminate Hgt | reflexivity | reflexivity]. }
  rewrite Hparts. cbn [List.length Nat.leb nth_error].
  rewrite Hnan, Hnan2, Hne, Hgt.
  cbn [negb andb]. eexists. reflexivity.
Qed.

Lemma parseTextFormat_nonempty (content rawLine : string) :
  In rawLine (splitNewline content) ->
  threeTokenLine rawLine -> isCommentLine rawLine = false ->
  parseTextFormat content <> [].
Proof.
  intros Hin Hline Hcomment.
  destruct (textLine_accepts rawLine Hline Hcomment) as [row Hrow].
  rewrite parseTextFormat_flat_map. intros Hnil.
  assert (In row (flat_map textLine (splitNewline content))) as Hrowin.
  { apply in_flat_map. exists rawLine. split; [exact Hin|].
    rewrite Hrow. now left. }
  rewrite Hnil in Hrowin. exact Hrowin.
Qed.

Lemma parse_cases (content : string) :
  parse content =
    match parseZmxFormat content, parseTextFormat content with
    | _ :: _, _ => parseZmxFormat content
    | [], _ :: _ => parseTextFormat content
    | [], [] => []
    end.
Proof.
  unfold parse.
  destruct (parseZmxFormat content); simpl; [|reflexivity].
  destruct (parseTextFormat content); reflexivity.
Qed.

(** C8, as stated, fails: the content [# 5 10] has no line that starts
    a surface and has a line of three tokens whose second and third
    read as radius 5 and diameter 10, yet [parse] returns nothing,
    because that line is a comment. *)
Lemma parse_comment_line_dropped :
  countSurfaces (splitNewline "# 5 10") = O /\
  In "# 5 10" (splitNewline "# 5 10") /\
  threeTokenLine "# 5 10" /\
  parseTextFormat "# 5 10" = [] /\
  parse "# 5 10" = [].
Proof.
  split; [reflexivity|].
  split; [now left|].
  split; [|split; reflexivity].
  exists "#", "5", "10", []. repeat split.
Qed.

(** C8, amended.  [parse] is defined on every string and returns the
    result of [parseZmxFormat] when that has a record, otherwise the
    result of [parseTextFormat] when that has one, otherwise the empty
    list.  When no line starts a surface and some line that is not a
    comment has three or more tokens whose second and third read as a
    radius other than zero and a diameter above zero, [parse] returns
    the result of [parseTextFormat], and it has a record. *)
Theorem parse_dispatch (content : string) :
  (parseZmxFormat content <> [] -> parse content = parseZmxFormat content) /\
  (parseZmxFormat content = [] -> parseTextFormat content <> [] ->
     parse content = parseTextFormat content) /\
  (parseZmxFormat content = [] -> parseTextFormat content = [] ->
     parse content = []) /\
  (forall rawLine : string,
     countSurfaces (splitNewline content) = O ->
     In rawLine (splitNewline content) ->
     threeTokenLine rawLine ->
     isCommentLine rawLine = false ->
     parse content = parseTextFormat content /\ parseTextFormat content <> []).
Proof.
  rewrite parse_cases.
  split; [|split; [|split]].
  - destruct (parseZmxFormat content); [congruence | reflexivity].
  - intros -> Htxt. destruct (parseTextFormat content); [congruence | reflexivity].
  - intros -> ->. reflexivity.
  - intros rawLine H0 Hin Hline Hcomment.
    rewrite (parseZmxFormat_no_marker content H0).
    pose proof (parseTextFormat_nonempty content rawLine Hin Hline Hcomment) as Hne.
    split; [|exact Hne].
    destruct (parseTextFormat content); [congruence | reflexivity].
Qed.

Lemma parse_dispatch_witness :
  parse "S1 -50.0 25.4" = parseTextFormat "S1 -50.0 25.4" /\
  parseTextFormat "S1 -50.0 25.4" <> [].
Proof.
  apply (proj2 (proj2 (proj2 (parse_dispatch "S1 -50.0 25.4"))) "S1 -50.0 25.4").
  - reflexivity.
  - now left.
  - exists "S1", "-50.0", "25.4", []. repeat split.
  - reflexivity.
Defined.

End ZemaxParserFacts.

(** ** Further properties of the calculator *)

Section CalculationsMore.

Import Calculations.
Local Open Scope R_scope.






(** X20.  The sign of the sag and the sign of the diameter do not
    reach the result of [calculateActualRadius]: only the type decides
    the sign of the radius. *)
Theorem calculateActualRadius_even (type : string) (d z : R) :
  calculateActualRadius type d (- z) = calculateActualRadius type d z /\
  calculateActualRadius type (- d) z = calculateActualRadius type d z.
Proof.
  unfold calculateActualRadius. split.
  - destruct (Req_dec_T (- z) 0) as [H1|H1], (Req_dec_T z 0) as [H2|H2];
      try reflexivity; try (exfalso; lra).
    destruct (Req_dec_T d 0); [reflexivity|].
    replace ((d * d / 4 + - z * - z) / (2 * - z))
      with (- ((d * d / 4 + z * z) / (2 * z))) by (field; exact H2).
    now rewrite Rabs_Ropp.
  - destruct (Req_dec_T z 0); [reflexivity|].
    destruct (Req_dec_T (- d) 0) as [H1|H1], (Req_dec_T d 0) as [H2|H2];
      try reflexivity; try (exfalso; lra).
    replace (- d * - d) with (d * d) by ring. reflexivity.
Qed.

End CalculationsMore.

(** ** Further properties of the parser *)

Section ZemaxParserMore.

Import Js ZemaxParser.
Local Open Scope string_scope.

(** *** Every record is usable *)

Lemma gtb_abs_of_gtb (x : Number) :
  gtb x (ofZ 0) = true -> gtb (abs x) (ofZ 0) = true.
Proof.
  destruct x as [|[|]|[n d]]; simpl; try discriminate; try reflexivity.
  unfold Qle_bool. simpl. intros H.
  apply negb_true_iff, Z.leb_gt in H. apply negb_true_iff, Z.leb_gt. lia.
Qed.

Lemma gtb_abs_of_nonzero (x : Number) :
  isNaN x = false -> strictNeq x (ofZ 0) = true -> gtb (abs x) (ofZ 0) = true.
Proof.
  destruct x as [|[|]|[n d]]; simpl; try discriminate; try reflexivity.
  unfold strictNeq, Qle_bool, Qeq_bool. simpl. intros _ H.
  apply negb_true_iff in H. apply Z.eqb_neq in H. simpl in H.
  apply negb_true_iff, Z.leb_gt. lia.
Qed.

Lemma reciprocal_not_nan (c : Number) :
  isNaN c = false -> strictNeq c (ofZ 0) = true ->
  isNaN (div (ofZ 1) c) = false.
Proof.
  destruct c as [|b|q]; simpl; try discriminate; try reflexivity.
  unfold strictNeq. simpl. intros _ H. apply negb_true_iff in H.
  change (Qeq_bool q 0 = false) in H. now rewrite H.
Qed.

Lemma extractNumber_not_nan (line : string) (x : Number) :
  extractNumber line = Some x -> isNaN x = false.
Proof.
  unfold extractNumber. destruct (matchNumber line) as [text|]; [|discriminate].
  destruct (isNaN (parseFloat text)) eqn:H; [discriminate|].
  now intros [= <-].
Qed.

Lemma determineSurfaceType_cases (r : Number) (m : option string) :
  determineSurfaceType r m = "Convex" \/ determineSurfaceType r m = "Concave".
Proof.
  unfold determineSurfaceType.
  destruct (truthy m), (gtb r (ofZ 0)); auto.
Qed.

Lemma formatSurface_ok (cur : Cur.t) :
  isValidSurface cur = true -> isNaN (Cur.radius cur) = false ->
  rowOk (formatSurface cur).
Proof.
  unfold isValidSurface. intros Hv Hn. apply andb_true_iff in Hv.
  destruct Hv as [Hr Hd]. unfold rowOk, formatSurface. simpl.
  split; [now apply gtb_abs_of_gtb|].
  split; [now apply gtb_abs_of_nonzero | apply determineSurfaceType_cases].
Qed.

Lemma onCurv_radius (line : string) (cur : Cur.t) :
  isNaN (Cur.radius cur) = false -> isNaN (Cur.radius (onCurv line cur)) = false.
Proof.
  intros H. unfold onCurv. destruct (startsWith line "CURV "); [|exact H].
  destruct (extractNumber line) as [c|] eqn:Hc; [|exact H].
  destruct (strictNeq c (ofZ 0)) eqn:Hne; simpl; [|exact H].
  apply reciprocal_not_nan; [|exact Hne]. now apply extractNumber_not_nan in Hc.
Qed.

Lemma onDiam_radius (line : string) (cur : Cur.t) :
  Cur.radius (onDiam line cur) = Cur.radius cur.
Proof.
  unfold onDiam. destruct (startsWith line "DIAM "); [|reflexivity].
  destruct (extractNumber line) as [d|]; [|reflexivity].
  destruct (gtb d (ofZ 0)); reflexivity.
Qed.

Lemma onGlas_radius (line : string) (cur : Cur.t) :
  Cur.radius (onGlas line cur) = Cur.radius cur.
Proof.
  unfold onGlas. destruct (startsWith line "GLAS "); [|reflexivity].
  destruct (truthy (extractMaterial line)); reflexivity.
Qed.

Lemma pushIfKept_valid {A : Type} (fmt : Cur.t -> A) (total : nat)
    (current : option Cur.t) (surfaces : list A) :
  pushIfKept fmt total current surfaces = surfaces \/
  exists cur, current = Some cur /\ isValidSurface cur = true /\
    pushIfKept fmt total current surfaces = (surfaces ++ [fmt cur])%list.
Proof.
  unfold pushIfKept. destruct current as [cur|]; [|now left].
  destruct (isValidSurface cur) eqn:Hv; [|now left].
  destruct ((0 <? Cur.number cur)%Z && (Cur.number cur <? Z.of_nat total - 1)%Z);
    [|now left].
  right. exists cur. repeat split. exact Hv.
Qed.

Lemma zmxSound_step (total : nat) (st : ZmxState Cur.t) (rawLine : string) :
  zmxSound st -> zmxSound (zmxStep (fun cur => cur) total st rawLine).
Proof.
  intros [Hall Hcur].
  assert (zmxSound (onSurf (fun cur => cur) total (trim rawLine) st)) as [Hall1 Hcur1].
  { unfold onSurf. destruct (startsWith (trim rawLine) "SURF "); [|now split].
    split; simpl.
    - destruct (pushIfKept_valid (fun cur => cur) total (currentSurface st) (emitted st))
        as [-> | (cur & Hc & Hv & ->)]; [exact Hall|].
      apply Forall_app. split; [exact Hall|]. constructor; [|constructor].
      split; [exact Hv | now apply Hcur].
    - now intros cur [= <-]. }
  unfold zmxStep.
  destruct (currentSurface (onSurf (fun cur => cur) total (trim rawLine) st))
    as [cur|] eqn:Hc.
  - split; simpl; [exact Hall1|].
    intros cur' [= <-]. rewrite onGlas_radius, onDiam_radius.
    apply onCurv_radius. now apply Hcur1.
  - split; [exact Hall1|]. rewrite Hc. discriminate.
Qed.

Lemma zmxSound_loop (total : nat) (lines : list string) (st : ZmxState Cur.t) :
  zmxSound st -> zmxSound (fold_left (zmxStep (fun cur => cur) total) lines st).
Proof.
  revert st. induction lines as [|l lines IH]; intros st H; simpl.
  - exact H.
  - apply IH. now apply zmxSound_step.
Qed.

Lemma keptSurfaces_sound (content : string) :
  Forall (fun cur => isValidSurface cur = true /\ isNaN (Cur.radius cur) = false)
         (keptSurfaces content).
Proof.
  unfold keptSurfaces, parseZmxWith.
  set (lines := splitNewline content). set (total := countSurfaces lines).
  assert (zmxSound (mkZmxState None (-1)%Z [])) as Hinit
    by (split; [constructor | discriminate]).
  destruct (zmxSound_loop total lines _ Hinit) as [Hall Hcur].
  set (st := fold_left (zmxStep (fun cur => cur) total) lines
               (mkZmxState None (-1)%Z [])) in *.
  destruct (pushIfKept_valid (fun cur => cur) total (currentSurface st) (emitted st))
    as [-> | (cur & Hc & Hv & ->)]; [exact Hall|].
  apply Forall_app. split; [exact Hall|]. constructor; [|constructor].
  split; [exact Hv | now apply Hcur].
Qed.

Lemma parseZmxFormat_ok (content : string) : Forall rowOk (parseZmxFormat content).
Proof.
  rewrite parseZmxFormat_keptSurfaces. apply Forall_map.
  eapply Forall_impl; [|apply keptSurfaces_sound].
  intros cur [Hv Hn]. now apply formatSurface_ok.
Qed.

Lemma textLine_ok (rawLine : string) : Forall rowOk (textLine rawLine).
Proof.
  unfold textLine.
  destruct (isEmpty (trim rawLine) || startsWith (trim rawLine) "#"
            || startsWith (trim rawLine) "//"); [constructor|].
  destruct (3 <=? List.length (splitWhitespace (trim rawLine)))%nat; [|constructor].
  destruct (nth_error (splitWhitespace (trim rawLine)) 1) as [p1|]; [|constructor].
  destruct (nth_error (splitWhitespace (trim rawLine)) 2) as [p2|]; [|constructor].
  destruct (negb (isNaN (parseFloat p1)) && negb (isNaN (parseFloat p2))
            && strictNeq (parseFloat p1) (ofZ 0) && gtb (parseFloat p2) (ofZ 0))
    eqn:H; [|constructor].
  apply andb_true_iff in H. destruct H as [H Hd].
  apply andb_true_iff in H. destruct H as [H Hne].
  apply andb_true_iff in H. destruct H as [Hn1 _].
  apply negb_true_iff in Hn1.
  constructor; [|constructor]. unfold rowOk. simpl.
  split; [exact Hd|].
  split; [now apply gtb_abs_of_nonzero | apply determineSurfaceType_cases].
Qed.

Lemma flat_map_Forall {A B : Type} (P : B -> Prop) (f : A -> list B) (l : list A) :
  (forall a, Forall P (f a)) -> Forall P (flat_map f l).
Proof.
  intros H. induction l as [|a l IH]; simpl; [constructor|].
  apply Forall_app. split; [apply H | exact IH].
Qed.

Lemma parseTextFormat_ok (content : string) : Forall rowOk (parseTextFormat content).
Proof.
  rewrite parseTextFormat_flat_map. apply flat_map_Forall, textLine_ok.
Qed.

(** X11.  Every record that [parse], [parseZmxFormat] or
    [parseTextFormat] returns, on any content, has a diameter above 0, a
    testplate radius above 0 (never [NaN], never negative) and a type
    that is Convex or Concave. *)
Theorem parse_rows_usable (content : string) :
  Forall rowOk (parseZmxFormat content) /\
  Forall rowOk (parseTextFormat content) /\
  Forall rowOk (parse content).
Proof.
  split; [apply parseZmxFormat_ok|]. split; [apply parseTextFormat_ok|].
  rewrite parse_cases.
  destruct (parseZmxFormat content) eqn:Hz.
  - destruct (parseTextFormat content) eqn:Ht; [constructor|].
    rewrite <- Ht. apply parseTextFormat_ok.
  - rewrite <- Hz. apply parseZmxFormat_ok.
Qed.

(** *** Lines *)

Lemma consHead_app (c : ascii) (l1 l2 : list string) :
  l1 <> [] -> consHead c (l1 ++ l2) = (consHead c l1 ++ l2)%list.
Proof. destruct l1; [congruence | reflexivity]. Qed.

Lemma splitNewline_nonempty (s : string) : splitNewline s <> [].
Proof.
  destruct s as [|c s]; simpl; [discriminate|].
  destruct (Ascii.eqb c "010"%char); [discriminate|].
  destruct (splitNewline s); discriminate.
Qed.

(** Splitting at line ends distributes over joining two texts with a
    line end. *)
Lemma splitNewline_join (a b : string) :
  splitNewline (a ++ newline ++ b) = (splitNewline a ++ splitNewline b)%list.
Proof.
  change (newline ++ b) with (String "010"%char b).
  induction a as [|c a IH]; simpl.
  - reflexivity.
  - rewrite IH. destruct (Ascii.eqb c "010"%char); [reflexivity|].
    apply consHead_app, splitNewline_nonempty.
Qed.

Lemma tl_app_nonempty {A : Type} (l1 l2 : list A) :
  l1 <> [] -> tl (l1 ++ l2) = (tl l1 ++ l2)%list.
Proof. destruct l1; [congruence | reflexivity]. Qed.

Lemma countSurfaces_app (l1 l2 : list string) :
  countSurfaces (l1 ++ l2) = (countSurfaces l1 + countSurfaces l2)%nat.
Proof.
  rewrite !countSurfaces_filter, filter_app, length_app. reflexivity.
Qed.

(** X12.  Whatever comes before the first line that starts a surface is
    ignored by [parseZmxFormat]: field lines with no open surface
    change nothing, and the count of surfaces is the same. *)
Theorem parseZmxFormat_skips_preamble (preamble body : string) :
  countSurfaces (splitNewline preamble) = O ->
  parseZmxFormat (preamble ++ newline ++ body) = parseZmxFormat body.
Proof.
  intros H0. unfold parseZmxFormat, parseZmxWith.
  rewrite splitNewline_join, countSurfaces_app, H0, fold_left_app.
  cbn [Nat.add].
  rewrite (zmxLoop_idle formatSurface _ (splitNewline preamble));
    [reflexivity | | reflexivity].
  now apply countSurfaces_zero.
Qed.

Lemma parseZmxFormat_skips_preamble_witness :
  parseZmxFormat (("VERS 140711 258 36214" ++ newline ++ "CURV 0.5")
                  ++ newline ++ threeSurfaceFile)
  = parseZmxFormat threeSurfaceFile.
Proof.
  apply parseZmxFormat_skips_preamble. reflexivity.
Defined.

(** X13.  [parseTextFormat] works line by line: the records of two
    texts joined by a line end are the records of the first followed by
    those of the second, and there are never more records than lines. *)
Theorem parseTextFormat_join (a b : string) :
  parseTextFormat (a ++ newline ++ b)
    = (parseTextFormat a ++ parseTextFormat b)%list /\
  (List.length (parseTextFormat a) <= List.length (splitNewline a))%nat.
Proof.
  rewrite !parseTextFormat_flat_map, splitNewline_join, flat_map_app.
  split; [reflexivity|].
  induction (splitNewline a) as [|l ls IH]; simpl; [lia|].
  rewrite length_app.
  assert (List.length (textLine l) <= 1)%nat as H1; [|lia].
  unfold textLine.
  repeat match goal with
         | |- context [if ?b then _ else _] => destruct b
         | |- context [match ?o with Some _ => _ | None => _ end] => destruct o
         end; simpl; lia.
Qed.

(** *** File order *)

Lemma StronglySorted_snoc (l : list Z) (x : Z) :
  StronglySorted Z.lt l -> Forall (fun y => (y < x)%Z) l ->
  StronglySorted Z.lt (l ++ [x]).
Proof.
  induction l as [|y l IH]; simpl; intros Hs Hall.
  - constructor; constructor.
  - inversion Hs as [|? ? Hs' Hy]; subst.
    inversion Hall as [|? ? Hyx Hall']; subst.
    constructor; [now apply IH|].
    apply Forall_app. split; [exact Hy|]. constructor; [exact Hyx | constructor].
Qed.

Lemma zmxOrdered_push (total : nat) (st : ZmxState Cur.t) :
  zmxOrdered st ->
  StronglySorted Z.lt
    (map Cur.number
       (pushIfKept (fun cur => cur) total (currentSurface st) (emitted st))) /\
  Forall (fun cur => (Cur.number cur < surfaceNumber st + 1)%Z)
    (pushIfKept (fun cur => cur) total (currentSurface st) (emitted st)).
Proof.
  intros (Hs & Hall & Hcur).
  assert (Forall (fun cur => (Cur.number cur < surfaceNumber st + 1)%Z) (emitted st))
    as Hall1 by (eapply Forall_impl; [|exact Hall]; simpl; intros; lia).
  destruct (pushIfKept_cases (fun cur => cur) total (currentSurface st) (emitted st))
    as [-> | (cur & Hc & _ & ->)]; [now split|].
  specialize (Hcur cur Hc). split.
  - rewrite map_app. apply StronglySorted_snoc; [exact Hs|].
    apply Forall_map. eapply Forall_impl; [|exact Hall]. simpl. intros; lia.
  - apply Forall_app. split; [exact Hall1|]. constructor; [lia | constructor].
Qed.

Lemma zmxOrdered_step (total : nat) (st : ZmxState Cur.t) (rawLine : string) :
  zmxOrdered st -> zmxOrdered (zmxStep (fun cur => cur) total st rawLine).
Proof.
  intros Hord.
  assert (zmxOrdered (onSurf (fun cur => cur) total (trim rawLine) st))
    as (Hs1 & Hall1 & Hcur1).
  { unfold onSurf. destruct (startsWith (trim rawLine) "SURF "); [|exact Hord].
    destruct (zmxOrdered_push total st Hord) as [Hs Hall].
    unfold zmxOrdered. simpl. split; [exact Hs|]. split; [exact Hall|].
    now intros cur [= <-]. }
  unfold zmxStep.
  destruct (currentSurface (onSurf (fun cur => cur) total (trim rawLine) st))
    as [cur|] eqn:Hc.
  - unfold zmxOrdered. simpl. split; [exact Hs1|]. split; [exact Hall1|].
    intros cur' [= <-].
    rewrite onGlas_number, onDiam_number, onCurv_number. now apply Hcur1.
  - unfold zmxOrdered. rewrite Hc. split; [exact Hs1|]. split; [exact Hall1|].
    discriminate.
Qed.

Lemma zmxOrdered_loop (total : nat) (lines : list string) (st : ZmxState Cur.t) :
  zmxOrdered st -> zmxOrdered (fold_left (zmxStep (fun cur => cur) total) lines st).
Proof.
  revert st. induction lines as [|l lines IH]; intros st H; simpl.
  - exact H.
  - apply IH. now apply zmxOrdered_step.
Qed.

(** X14.  [parseZmxFormat] returns the surfaces it keeps in file order
    and each at most once: the indices of the kept accumulators grow
    strictly along the result. *)
Theorem parseZmxFormat_file_order (content : string) :
  parseZmxFormat content = map formatSurface (keptSurfaces content) /\
  StronglySorted Z.lt (map Cur.number (keptSurfaces content)).
Proof.
  split; [apply parseZmxFormat_keptSurfaces|].
  unfold keptSurfaces, parseZmxWith.
  set (lines := splitNewline content). set (total := countSurfaces lines).
  assert (zmxOrdered (mkZmxState None (-1)%Z [])) as Hinit.
  { unfold zmxOrdered. simpl. split; [constructor|]. split; [constructor|].
    discriminate. }
  apply (zmxOrdered_push total), (zmxOrdered_loop total lines _ Hinit).
Qed.

(** *** The CSV format *)

Lemma parseCSV_flat_map (content : string) :
  parseCSV content = flat_map csvLine (tl (splitNewline content)).
Proof.
  unfold parseCSV.
  assert (forall lines acc,
            fold_left (fun surfaces l => (surfaces ++ csvLine l)%list) lines acc
            = (acc ++ flat_map csvLine lines)%list) as H.
  { induction lines as [|l lines IH]; intros acc; simpl.
    - now rewrite app_nil_r.
    - rewrite IH. now rewrite app_assoc. }
  now rewrite H.
Qed.

Lemma csvLine_ok (rawLine : string) :
  Forall (fun row => rowOk row /\ Row.material row = Some EmptyString)
         (csvLine rawLine).
Proof.
  unfold csvLine.
  destruct (isEmpty (trim rawLine)); [constructor|].
  destruct (2 <=? List.length (splitComma (trim rawLine)))%nat; [|constructor].
  destruct (nth_error (splitComma (trim rawLine)) 0) as [p0|]; [|constructor].
  destruct (nth_error (splitComma (trim rawLine)) 1) as [p1|]; [|constructor].
  destruct (negb (isNaN (parseFloat p0)) && negb (isNaN (parseFloat p1))
            && strictNeq (parseFloat p0) (ofZ 0) && gtb (parseFloat p1) (ofZ 0))
    eqn:H; [|constructor].
  apply andb_true_iff in H. destruct H as [H Hd].
  apply andb_true_iff in H. destruct H as [H Hne].
  apply andb_true_iff in H. destruct H as [Hn1 _].
  apply negb_true_iff in Hn1.
  constructor; [|constructor]. split; [|reflexivity].
  apply formatSurface_ok; [|exact Hn1].
  unfold isValidSurface. simpl Cur.radius. simpl Cur.diameter.
  now rewrite Hne, Hd.
Qed.

(** X15.  [parseCSV] never reads the first line: a content of one line
    gives no record, and replacing the first line by any other single
    line leaves the result unchanged.  Every record it returns has a
    diameter and a testplate radius above 0, a type that is Convex or
    Concave, and the empty string as material. *)
Theorem parseCSV_spec (header other body : string) :
  splitNewline header = [header] -> splitNewline other = [other] ->
  parseCSV header = [] /\
  parseCSV (header ++ newline ++ body) = parseCSV (other ++ newline ++ body) /\
  parseCSV (header ++ newline ++ body) = flat_map csvLine (splitNewline body) /\
  Forall (fun row => rowOk row /\ Row.material row = Some EmptyString)
         (parseCSV (header ++ newline ++ body)).
Proof.
  intros Hh Ho.
  assert (forall h, splitNewline h = [h] ->
            parseCSV (h ++ newline ++ body) = flat_map csvLine (splitNewline body))
    as Hskip.
  { intros h H1. now rewrite parseCSV_flat_map, splitNewline_join, H1. }
  split; [now rewrite parseCSV_flat_map, Hh|].
  split; [now rewrite !Hskip|].
  split; [now apply Hskip|].
  rewrite parseCSV_flat_map. apply flat_map_Forall, csvLine_ok.
Qed.

Lemma parseCSV_spec_witness :
  parseCSV ("50,25.4" ++ newline ++ "-30,12")
  = parseCSV ("Radius,Diameter" ++ newline ++ "-30,12").
Proof.
  apply (parseCSV_spec "50,25.4" "Radius,Diameter" "-30,12"); reflexivity.
Defined.

(** *** Numbers in a line *)

Lemma digit_char (c : ascii) :
  isDigit c = true ->
  isWhiteSpace c = false /\ Ascii.eqb c "-"%char = false /\
  Ascii.eqb c "+"%char = false /\ Ascii.eqb c "."%char = false /\
  forall r, startsWith (String c r) "Infinity" = false.
Proof.
  destruct c as [[] [] [] [] [] [] [] []]; intros H;
    try discriminate H; repeat split.
Qed.

Lemma spanDigits_no_digit (t : string) :
  hasDigit t = false -> spanDigits t = (EmptyString, t).
Proof.
  destruct t as [|c t]; [reflexivity|]. simpl. intros H.
  apply orb_false_elim in H. destruct H as [-> _]. reflexivity.
Qed.

Lemma spanDigits_digit (c : ascii) (t : string) :
  isDigit c = true ->
  exists d r, spanDigits (String c t) = (String c d, r).
Proof.
  intros H. simpl. rewrite H. destruct (spanDigits t) as [d r]. now exists d, r.
Qed.

Lemma hasDigit_spanSign (s : string) :
  hasDigit s = false -> hasDigit (snd (spanSign s)) = false.
Proof.
  destruct s as [|c s]; [reflexivity|]. simpl. intros H.
  apply orb_false_elim in H. destruct H as [Hc Hs].
  destruct (Ascii.eqb c "-"%char); [exact Hs|].
  destruct (Ascii.eqb c "+"%char); [exact Hs|].
  simpl. now rewrite Hc, Hs.
Qed.

Lemma matchNumberAt_no_digit (s : string) :
  hasDigit s = false -> matchNumberAt s = None.
Proof.
  intros H. apply hasDigit_spanSign in H. unfold matchNumberAt.
  rewrite (spanDigits_no_digit _ H). simpl isEmpty. cbv iota.
  destruct (snd (spanSign s)) as [|c r2]; [reflexivity|].
  simpl in H. apply orb_false_elim in H. destruct H as [_ H2].
  destruct (Ascii.eqb c "."%char); [|reflexivity].
  now rewrite (spanDigits_no_digit _ H2).
Qed.

Lemma matchNumber_no_digit (s : string) :
  hasDigit s = false -> matchNumber s = None.
Proof.
  induction s as [|c s IH]; intros H.
  - reflexivity.
  - simpl matchNumber. rewrite (matchNumberAt_no_digit _ H).
    apply IH. simpl in H. now apply orb_false_elim in H.
Qed.

Lemma parseFloat_unsigned (neg : bool) (t : string) :
  numericStart t = true ->
  isNaN
    (if startsWith t "Infinity" then Infinity neg
     else
       let (ip, r1) := spanDigits t in
       let (fp, r3) :=
         match r1 with
         | String c r2 =>
             if Ascii.eqb c "."%char then spanDigits r2 else (EmptyString, r1)
         | EmptyString => (EmptyString, r1)
         end in
       if isEmpty ip && isEmpty fp then NaN
       else
         let e := match spanExponent r3 with Some (_, e) => e | None => 0%Z end in
         let mant := digitsValue 0 (ip ++ fp) in
         let q := decimalValue mant (e - Z.of_nat (length fp)) in
         Finite (if neg then Qopp q else q)) = false.
Proof.
  destruct t as [|c r]; [discriminate|]. simpl numericStart. intros H.
  apply orb_true_iff in H. destruct H as [Hd | Hdot].
  - destruct (digit_char c Hd) as (_ & _ & _ & _ & HI).
    rewrite HI.
    destruct (spanDigits_digit c r Hd) as (d & r1 & ->).
    destruct (match r1 with
              | String c0 r2 =>
                  if Ascii.eqb c0 "."%char then spanDigits r2 else (EmptyString, r1)
              | EmptyString => (EmptyString, r1)
              end) as [fp r3].
    reflexivity.
  - apply andb_true_iff in Hdot. destruct Hdot as [Hc H2].
    apply Ascii.eqb_eq in Hc. subst c.
    destruct r as [|c2 r2]; [discriminate|].
    assert (startsWith (String "."%char (String c2 r2)) "Infinity" = false) as ->
      by reflexivity.
    change (spanDigits (String "."%char (String c2 r2)))
      with (EmptyString, String "."%char (String c2 r2)).
    cbv iota beta. rewrite Ascii.eqb_refl.
    destruct (spanDigits_digit c2 r2 H2) as (d & r3 & ->).
    reflexivity.
Qed.

Lemma parseFloat_numericStart (t : string) :
  numericStart t = true ->
  isNaN (parseFloat t) = false /\
  isNaN (parseFloat (String "-"%char t)) = false /\
  isNaN (parseFloat (String "+"%char t)) = false.
Proof.
  intros H. unfold parseFloat.
  change (trimStart (String "-"%char t)) with (String "-"%char t).
  change (trimStart (String "+"%char t)) with (String "+"%char t).
  change (spanSign (String "-"%char t)) with (true, t).
  change (spanSign (String "+"%char t)) with (false, t).
  split; [|split; now apply parseFloat_unsigned].
  assert (trimStart t = t /\ spanSign t = (false, t)) as [-> ->];
    [|now apply parseFloat_unsigned].
  destruct t as [|c r]; [discriminate|]. simpl in H.
  apply orb_true_iff in H. destruct H as [Hd | Hdot].
  - destruct (digit_char c Hd) as (Hw & Hm & Hp & _ & _).
    simpl. now rewrite Hw, Hm, Hp.
  - apply andb_true_iff in Hdot. destruct Hdot as [Hc _].
    apply Ascii.eqb_eq in Hc. subst c. split; reflexivity.
Qed.

Lemma spanDigits_head (t : string) (a : ascii) (d r : string) :
  spanDigits t = (String a d, r) -> isDigit a = true.
Proof.
  destruct t as [|c t]; simpl; [discriminate|].
  destruct (isDigit c) eqn:Hc; [|discriminate].
  destruct (spanDigits t). intros [= <- _ _]. exact Hc.
Qed.

Ltac numeric_start_done :=
  match goal with
  | |- Some _ = Some ?m -> _ =>
      intros [= <-]; eexists; split; [reflexivity|];
      cbn [append numericStart];
      repeat match goal with H : isDigit _ = true |- _ => rewrite H end;
      reflexivity
  | |- None = Some _ -> _ => discriminate
  end.

(** What the pattern matches is an optional sign followed by a text
    that begins like a number. *)
Lemma matchNumberAt_shape (s m : string) :
  matchNumberAt s = Some m ->
  exists sg x, m = sg ++ x /\ numericStart x = true /\
    (sg = EmptyString \/ sg = "-" \/ sg = "+").
Proof.
  unfold matchNumberAt.
  set (sg := match s with
             | String c _ =>
                 if (Ascii.eqb c "-"%char || Ascii.eqb c "+"%char)%bool
                 then String c EmptyString else EmptyString
             | EmptyString => EmptyString
             end).
  assert (sg = EmptyString \/ sg = "-" \/ sg = "+") as Hsg.
  { unfold sg. destruct s as [|c s']; [now left|].
    destruct (Ascii.eqb_spec c "-"%char) as [->|]; [right; now left|].
    destruct (Ascii.eqb_spec c "+"%char) as [->|]; [right; now right|].
    now left. }
  intros H.
  assert (exists x, m = sg ++ x /\ numericStart x = true) as (x & Hm & Hx);
    [|now exists sg, x].
  revert H. generalize sg. clear sg Hsg. intros sg.
  destruct (spanDigits (snd (spanSign s))) as [ip r1] eqn:Hsp.
  destruct ip as [|a d].
  - (* no integer digits: a dot and digits are needed *)
    simpl isEmpty. cbv iota.
    destruct r1 as [|c1 r2]; [discriminate|].
    destruct (Ascii.eqb_spec c1 "."%char) as [->|]; [|discriminate].
    destruct (spanDigits r2) as [fp r3] eqn:Hfp.
    destruct fp as [|a2 d2]; [discriminate|].
    apply spanDigits_head in Hfp.
    simpl isEmpty. cbv iota.
    destruct (spanExponent r3) as [[text e]|]; numeric_start_done.
  - apply spanDigits_head in Hsp.
    simpl isEmpty. cbv iota.
    destruct r1 as [|c1 r2].
    + destruct (spanExponent EmptyString) as [[text e]|]; numeric_start_done.
    + destruct (Ascii.eqb c1 "."%char).
      * destruct (spanDigits r2) as [fp r3].
        destruct (isEmpty fp).
        -- destruct (spanExponent (String c1 r2)) as [[text e]|];
             numeric_start_done.
        -- destruct (spanExponent r3) as [[text e]|]; numeric_start_done.
      * destruct (spanExponent (String c1 r2)) as [[text e]|];
          numeric_start_done.
Qed.

Lemma matchNumberAt_reads (s m : string) :
  matchNumberAt s = Some m -> isNaN (parseFloat m) = false.
Proof.
  intros H. apply matchNumberAt_shape in H.
  destruct H as (sg & x & -> & Hx & [-> | [-> | ->]]);
    now apply parseFloat_numericStart.
Qed.

Lemma matchNumber_reads (s m : string) :
  matchNumber s = Some m -> isNaN (parseFloat m) = false.
Proof.
  induction s as [|c s IH].
  - intros H. vm_compute in H. discriminate.
  - simpl matchNumber.
    destruct (matchNumberAt (String c s)) eqn:H; [|exact IH].
    intros [= <-]. now apply matchNumberAt_reads in H.
Qed.

Lemma matchNumberAt_digit (c : ascii) (s : string) :
  isDigit c = true -> matchNumberAt (String c s) <> None.
Proof.
  intros Hd. destruct (digit_char c Hd) as (_ & Hm & Hp & _ & _).
  unfold matchNumberAt. simpl spanSign. rewrite Hm, Hp. simpl snd.
  destruct (spanDigits_digit c s Hd) as (d & r1 & ->).
  simpl isEmpty. cbv iota.
  repeat match goal with
         | |- context [match ?x with _ => _ end] => destruct x
         end; discriminate.
Qed.

Lemma matchNumber_digit (s : string) :
  hasDigit s = true -> matchNumber s <> None.
Proof.
  induction s as [|c s IH]; [discriminate|].
  intros H. simpl matchNumber.
  destruct (matchNumberAt (String c s)) eqn:Hat; [discriminate|].
  apply IH. simpl in H. apply orb_true_iff in H. destruct H as [Hd|Hs]; [|exact Hs].
  exfalso. now apply (matchNumberAt_digit c s Hd).
Qed.

(** X16.  [extractNumber] returns [null] exactly when the line has no
    decimal digit; on any line with a digit it returns a number that is
    not [NaN]. *)
Theorem extractNumber_none_iff (line : string) :
  (extractNumber line = None <-> hasDigit line = false) /\
  (forall x, extractNumber line = Some x -> isNaN x = false).
Proof.
  split; [|intros x; apply extractNumber_not_nan].
  unfold extractNumber. split.
  - intros H. destruct (hasDigit line) eqn:Hd; [|reflexivity].
    exfalso. apply matchNumber_digit in Hd.
    destruct (matchNumber line) as [m|] eqn:Hm; [|congruence].
    rewrite (matchNumber_reads line m Hm) in H. discriminate.
  - intros H. now rewrite matchNumber_no_digit.
Qed.

Lemma extractNumber_none_iff_witness :
  extractNumber "GLAS N-BK" = None /\
  isNaN (ofZ 5) = false.
Proof.
  split.
  - apply (proj1 (extractNumber_none_iff "GLAS N-BK")). reflexivity.
  - apply (proj2 (extractNumber_none_iff "DIAM 5 0 0") (ofZ 5)). reflexivity.
Defined.

(** *** Materials *)

(** X17.  A material that [extractMaterial] returns is never blank: it
    is not empty, it is not the blank-glass token and it is not made of
    underscores only; so the test of the result in the GLAS block
    passes exactly when the result is not [null]. *)
Theorem extractMaterial_not_blank (line m : string) :
  extractMaterial line = Some m ->
  isEmpty m = false /\ m <> "___BLANK" /\ onlyUnderscores m = false /\
  truthy (extractMaterial line) = true.
Proof.
  intros H.
  assert (isEmpty m = false /\ m <> "___BLANK" /\ onlyUnderscores m = false)
    as (He & Hb & Hu).
  { revert H. unfold extractMaterial.
    destruct (List.length (splitWhitespace line) <? 2)%nat; [discriminate|].
    destruct (nth_error (splitWhitespace line) 1) as [name|]; [|discriminate].
    destruct (negb (isEmpty name) && negb (String.eqb name "___BLANK")
              && negb (onlyUnderscores name)) eqn:Hn.
    - intros [= <-].
      apply andb_true_iff in Hn. destruct Hn as [Hn Hu].
      apply andb_true_iff in Hn. destruct Hn as [He Hb].
      apply negb_true_iff in He, Hb, Hu. apply String.eqb_neq in Hb.
      repeat split; assumption.
    - destruct (String.eqb name "___BLANK"
                && (5 <=? List.length (splitWhitespace line))%nat);
        [|discriminate].
      destruct (nth_error (splitWhitespace line) 4) as [text|]; [|discriminate].
      destruct (negb (isNaN (parseFloat text)) && gtb (parseFloat text) (ofZ 1));
        [|discriminate].
      intros [= <-]. repeat split. discriminate. }
  repeat split; try assumption.
  rewrite H. simpl. now rewrite He.
Qed.

Lemma extractMaterial_not_blank_witness :
  isEmpty "N-BK7" = false /\ "N-BK7" <> "___BLANK" /\
  onlyUnderscores "N-BK7" = false /\
  truthy (extractMaterial "GLAS N-BK7 0 0 1.5 40") = true.
Proof.
  apply (extractMaterial_not_blank "GLAS N-BK7 0 0 1.5 40" "N-BK7"). reflexivity.
Defined.

(** *** Format detection *)

Lemma prefix_app_r (p s b : string) :
  String.prefix p s = true -> String.prefix p (s ++ b) = true.
Proof.
  revert s. induction p as [|a p IH]; intros s;
    [intros _; destruct (s ++ b); reflexivity|].
  destruct s as [|c s]; simpl; [discriminate|].
  destruct (Ascii.ascii_dec a c); [apply IH | discriminate].
Qed.

Lemma prefix_app_l (p q s : string) :
  String.prefix (p ++ q) s = true -> String.prefix p s = true.
Proof.
  revert s. induction p as [|a p IH]; intros s;
    [intros _; destruct s; reflexivity|].
  destruct s as [|c s]; simpl; [discriminate|].
  destruct (Ascii.ascii_dec a c); [apply IH | discriminate].
Qed.

Lemma includes_prefix (s p : string) :
  String.prefix p s = true -> includes s p = true.
Proof. intros H. destruct s; cbn [includes]; rewrite H; reflexivity. Qed.

Lemma includes_cons (c : ascii) (s p : string) :
  includes s p = true -> includes (String c s) p = true.
Proof. intros H. cbn [includes]. rewrite H. apply orb_true_r. Qed.

Lemma includes_app_l (a s p : string) :
  includes s p = true -> includes (a ++ s) p = true.
Proof.
  intros H. induction a as [|c a IH]; [exact H|]. now apply includes_cons.
Qed.

Lemma includes_app_r (s b p : string) :
  includes s p = true -> includes (s ++ b) p = true.
Proof.
  induction s as [|c s IH]; cbn [includes].
  - rewrite orb_false_r. intros H. apply includes_prefix.
    now apply (prefix_app_r p EmptyString b).
  - intros H. apply orb_true_iff in H. destruct H as [H|H].
    + apply includes_prefix. now apply (prefix_app_r p (String c s) b).
    + cbn [append]. apply includes_cons. now apply IH.
Qed.

Lemma trimStart_suffix (s : string) : exists a, s = a ++ trimStart s.
Proof.
  induction s as [|c s [a IH]]; [now exists EmptyString|]. simpl.
  destruct (isWhiteSpace c).
  - exists (String c a). simpl. now rewrite <- IH.
  - now exists EmptyString.
Qed.

Lemma trimEnd_prefix (s : string) : exists b, s = trimEnd s ++ b.
Proof.
  induction s as [|c s [b IH]]; [now exists EmptyString|]. simpl.
  destruct (isWhiteSpace c && isEmpty (trimEnd s)).
  - now exists (String c s).
  - exists b. simpl. now rewrite <- IH.
Qed.

Lemma includes_trim (s p : string) :
  includes (trim s) p = true -> includes s p = true.
Proof.
  unfold trim. intros H.
  destruct (trimStart_suffix s) as [a Ha].
  destruct (trimEnd_prefix (trimStart s)) as [b Hb].
  rewrite Ha, Hb. now apply includes_app_l, includes_app_r.
Qed.

(** The first piece of a split is the beginning of the text. *)
Lemma splitNewline_head (s : string) :
  exists t ts b, splitNewline s = t :: ts /\ s = t ++ b.
Proof.
  induction s as [|c s (t & ts & b & Hs & Hb)].
  - now exists EmptyString, [], EmptyString.
  - simpl. destruct (Ascii.eqb c "010"%char).
    + now exists EmptyString, (splitNewline s), (String c s).
    + rewrite Hs. exists (String c t), ts, b. simpl. now rewrite <- Hb.
Qed.

(** What a line of the content includes, the content includes. *)
Lemma includes_line (s l p : string) :
  In l (splitNewline s) -> includes l p = true -> includes s p = true.
Proof.
  revert l. induction s as [|c s IH]; intros l; cbn [splitNewline].
  - intros [<-|[]] H. exact H.
  - destruct (Ascii.eqb c "010"%char).
    + intros [<-|Hin] H.
      * cbn [includes] in H. rewrite orb_false_r in H.
        apply includes_prefix.
        now apply (prefix_app_r p EmptyString (String c s)).
      * apply includes_cons. now apply (IH l).
    + destruct (splitNewline_head s) as (t & ts & b & Hs & Hb).
      rewrite Hs in *. cbn [consHead]. intros [<-|Hin] H.
      * cbn [includes] in H. apply orb_true_iff in H. destruct H as [H|H].
        -- apply includes_prefix.
           apply (prefix_app_r p (String c t) b) in H. cbn [append] in H.
           now rewrite <- Hb in H.
        -- apply includes_cons. apply (IH t); [now left | exact H].
      * apply includes_cons. apply (IH l); [now right | exact H].
Qed.

Lemma includes_marker (content rawLine p q : string) :
  In rawLine (splitNewline content) ->
  startsWith (trim rawLine) (p ++ q) = true ->
  includes content p = true.
Proof.
  intros Hin H. apply (includes_line content rawLine p Hin).
  apply includes_trim, includes_prefix. now apply prefix_app_l in H.
Qed.

Lemma onCurv_sets_radius (line : string) (cur : Cur.t) :
  startsWith line "CURV " = false -> onCurv line cur = cur.
Proof. unfold onCurv. now intros ->. Qed.

Lemma zmxNeeds_step (F : Prop) (total : nat) (st : ZmxState Cur.t)
    (rawLine : string) :
  (startsWith (trim rawLine) "CURV " = true -> F) ->
  zmxNeeds F st -> zmxNeeds F (zmxStep (fun cur => cur) total st rawLine).
Proof.
  intros HF [Hcur Hem].
  assert (zmxNeeds F (onSurf (fun cur => cur) total (trim rawLine) st))
    as [Hcur1 Hem1].
  { unfold onSurf. destruct (startsWith (trim rawLine) "SURF "); [|now split].
    split; simpl.
    - intros cur [= <-]. discriminate.
    - destruct (pushIfKept_valid (fun cur => cur) total (currentSurface st) (emitted st))
        as [-> | (cur & Hc & Hv & ->)]; [exact Hem|].
      intros _. apply (Hcur cur Hc).
      unfold isValidSurface in Hv. now apply andb_true_iff in Hv. }
  unfold zmxStep.
  destruct (currentSurface (onSurf (fun cur => cur) total (trim rawLine) st))
    as [cur|] eqn:Hc.
  - split; simpl; [|exact Hem1].
    intros cur' [= <-]. rewrite onGlas_radius, onDiam_radius.
    destruct (startsWith (trim rawLine) "CURV ") eqn:Hcurv; [intros _; now apply HF|].
    rewrite onCurv_sets_radius by exact Hcurv. now apply Hcur1.
  - split; [|exact Hem1]. rewrite Hc. discriminate.
Qed.

Lemma zmxNeeds_loop (F : Prop) (total : nat) (lines : list string)
    (st : ZmxState Cur.t) :
  Forall (fun l => startsWith (trim l) "CURV " = true -> F) lines ->
  zmxNeeds F st ->
  zmxNeeds F (fold_left (zmxStep (fun cur => cur) total) lines st).
Proof.
  intros Hall. revert st. induction Hall as [|l lines Hl _ IH]; intros st H; simpl.
  - exact H.
  - apply IH. now apply zmxNeeds_step.
Qed.

(** A record of the structured pass needs a line that begins with
    [CURV] and one that begins with [SURF]. *)
Lemma parseZmxFormat_needs_lines (content : string) :
  parseZmxFormat content <> [] ->
  (exists l, In l (splitNewline content) /\ startsWith (trim l) "SURF " = true) /\
  (exists l, In l (splitNewline content) /\ startsWith (trim l) "CURV " = true).
Proof.
  intros Hne. split.
  - destruct (countSurfaces (splitNewline content)) eqn:H0.
    + now rewrite parseZmxFormat_no_marker in Hne.
    + rewrite countSurfaces_filter in H0.
      destruct (filter isSurfLine (splitNewline content)) as [|l ls] eqn:Hf;
        [discriminate|].
      assert (In l (filter isSurfLine (splitNewline content))) as Hin
        by (rewrite Hf; now left).
      apply filter_In in Hin. now exists l.
  - set (F := exists l, In l (splitNewline content)
                        /\ startsWith (trim l) "CURV " = true).
    rewrite parseZmxFormat_keptSurfaces in Hne.
    assert (keptSurfaces content <> []) as Hk
      by (intros Hk; now rewrite Hk in Hne).
    revert Hk. unfold keptSurfaces, parseZmxWith.
    set (lines := splitNewline content). set (total := countSurfaces lines).
    assert (zmxNeeds F (mkZmxState None (-1)%Z [])) as Hinit
      by (split; simpl; [discriminate | congruence]).
    assert (Forall (fun l => startsWith (trim l) "CURV " = true -> F) lines) as Hall.
    { apply Forall_forall. intros l Hin Hl. now exists l. }
    destruct (zmxNeeds_loop F total lines _ Hall Hinit) as [Hcur Hem].
    set (st := fold_left (zmxStep (fun cur => cur) total) lines
                 (mkZmxState None (-1)%Z [])) in *.
    destruct (pushIfKept_valid (fun cur => cur) total (currentSurface st) (emitted st))
      as [-> | (cur & Hc & Hv & ->)]; [exact Hem|].
    intros _. apply (Hcur cur Hc).
    unfold isValidSurface in Hv. now apply andb_true_iff in Hv.
Qed.

(** X18.  Whenever [parseZmxFormat] returns a record, [detectFormat]
    answers zmx; so on a content that [detectFormat] calls csv or text
    the structured pass returns nothing and [parse] returns what
    [parseTextFormat] returns. *)
Theorem detectFormat_agrees (content : string) :
  (parseZmxFormat content <> [] -> detectFormat content = "zmx") /\
  (detectFormat content <> "zmx" ->
     parseZmxFormat content = [] /\ parse content = parseTextFormat content).
Proof.
  assert (parseZmxFormat content <> [] -> detectFormat content = "zmx") as H.
  { intros Hne.
    destruct (parseZmxFormat_needs_lines content Hne)
      as [(l1 & Hin1 & H1) (l2 & Hin2 & H2)].
    unfold detectFormat.
    rewrite (includes_marker content l1 "SURF" " " Hin1 H1).
    rewrite (includes_marker content l2 "CURV" " " Hin2 H2).
    reflexivity. }
  split; [exact H|].
  intros Hd.
  assert (parseZmxFormat content = []) as Hz.
  { destruct (parseZmxFormat content) eqn:E; [reflexivity|].
    exfalso. apply Hd, H. discriminate. }
  split; [exact Hz|].
  rewrite parse_cases, Hz. now destruct (parseTextFormat content).
Qed.

Lemma detectFormat_agrees_witness :
  detectFormat threeSurfaceFile = "zmx" /\
  parse "S1 -50.0 25.4" = parseTextFormat "S1 -50.0 25.4".
Proof.
  split.
  - apply (proj1 (detectFormat_agrees threeSurfaceFile)). discriminate.
  - apply (proj2 (detectFormat_agrees "S1 -50.0 25.4")). discriminate.
Defined.

(** *** Which pass a record comes from *)

Lemma formatSurface_material (cur : Cur.t) :
  exists m, Row.material (formatSurface cur) = Some m.
Proof.
  unfold formatSurface. simpl.
  destruct (Cur.material cur) as [m|]; simpl.
  - destruct (isEmpty m); simpl; eexists; reflexivity.
  - eexists; reflexivity.
Qed.

Lemma textLine_material (rawLine : string) :
  Forall (fun row => Row.material row = None) (textLine rawLine).
Proof.
  unfold textLine.
  repeat match goal with
         | |- context [if ?b then _ else _] => destruct b
         | |- context [match ?o with Some _ => _ | None => _ end] => destruct o
         end; repeat constructor.
Qed.

(** X19.  The material field tells the two passes apart: every record
    of [parseZmxFormat] carries a string (the empty one when the surface
    has no glass), every record of [parseTextFormat] carries [null]; so
    the records of one call of [parse] all carry a string or all carry
    [null]. *)
Theorem parse_material_uniform (content : string) :
  Forall (fun row => exists m, Row.material row = Some m) (parseZmxFormat content) /\
  Forall (fun row => Row.material row = None) (parseTextFormat content) /\
  (Forall (fun row => exists m, Row.material row = Some m) (parse content) \/
   Forall (fun row => Row.material row = None) (parse content)).
Proof.
  assert (Forall (fun row => exists m, Row.material row = Some m)
            (parseZmxFormat content)) as Hz.
  { rewrite parseZmxFormat_keptSurfaces. apply Forall_map, Forall_forall.
    intros cur _. apply formatSurface_material. }
  assert (Forall (fun row => Row.material row = None) (parseTextFormat content))
    as Ht.
  { rewrite parseTextFormat_flat_map. apply flat_map_Forall, textLine_material. }
  split; [exact Hz|]. split; [exact Ht|].
  rewrite parse_cases.
  destruct (parseZmxFormat content) eqn:Ez; [|now left].
  destruct (parseTextFormat content) eqn:Et; right; [constructor | exact Ht].
Qed.

End ZemaxParserMore.

(** ** The calculator in binary64 *)

Section Calculations64Facts.

Import Binary64 Calculations64.
Local Open Scope string_scope.

(** *** Signs *)





(** [|x|] is above or equal to 0, or [NaN]; never below 0. *)
Lemma abs_sign (x : Number) :
  (leb zero (abs x) = true \/ abs x = S754_nan) /\
  ltb (abs x) zero = false.
Proof. destruct x; simpl; auto. Qed.

Lemma zero_sign :
  leb zero zero = true /\ ltb zero zero = false.
Proof. split; reflexivity. Qed.

(** *** Testplate sag *)




(** *** Actual radius *)



Lemma actualRadius64_regular (type : string) (d z : Number) :
  strictEq z zero = false -> strictEq d zero = false ->
  calculateActualRadius type d z
  = if String.eqb type "Concave" then opp (abs (radiusQuotient d z))
    else abs (radiusQuotient d z).
Proof. unfold calculateActualRadius. now intros -> ->. Qed.

Lemma actualRadius64_not_negative (type : string) (d z : Number) :
  String.eqb type "Concave" = false ->
  (leb zero (calculateActualRadius type d z) = true \/
   calculateActualRadius type d z = S754_nan) /\
  ltb (calculateActualRadius type d z) zero = false.
Proof.
  intros Ht. unfold calculateActualRadius. rewrite Ht.
  destruct (strictEq z zero || strictEq d zero).
  - split; [left|]; reflexivity.
  - apply abs_sign.
Qed.



(** *** Fringe sag *)

Lemma binary_round_aux_opp (s : bool) (m e : Z) (l : location) :
  binary_round_aux prec emax (negb s) m e l
  = SFopp (binary_round_aux prec emax s m e l).
Proof.
  unfold binary_round_aux.
  destruct (shr_fexp prec emax m e l) as [mrs1 e1].
  destruct (shr_fexp prec emax _ e1 loc_Exact) as [mrs2 e2].
  destruct (shr_m mrs2); [reflexivity | | reflexivity].
  destruct (e2 <=? emax - prec)%Z; reflexivity.
Qed.

Lemma mul_opp_l (x y : Number) : mul (opp x) y = opp (mul x y).
Proof.
  destruct x as [sx|sx| |sx mx ex], y as [sy|sy| |sy my ey];
    try reflexivity;
    try (simpl; now destruct sx, sy).
  unfold mul, opp. cbn [SFmul SFopp].
  replace (xorb (negb sx) sy) with (negb (xorb sx sy)) by now destruct sx, sy.
  apply binary_round_aux_opp.
Qed.

Lemma div_opp_l (x y : Number) : div (opp x) y = opp (div x y).
Proof.
  destruct x as [sx|sx| |sx mx ex], y as [sy|sy| |sy my ey];
    try reflexivity;
    try (simpl; now destruct sx, sy).
  unfold div, opp. cbn [SFdiv SFopp].
  destruct (SFdiv_core_binary prec emax (Z.pos mx) ex (Z.pos my) ey) as [[mz ez] lz].
  replace (xorb (negb sx) sy) with (negb (xorb sx sy)) by now destruct sx, sy.
  apply binary_round_aux_opp.
Qed.

Lemma fringeSag64_odd (n lambda : Number) :
  calculateFringeSag (opp n) lambda = opp (calculateFringeSag n lambda).
Proof. unfold calculateFringeSag. now rewrite mul_opp_l, div_opp_l. Qed.

(** **** Doubling and halving *)

Local Open Scope Z_scope.

(** One exponent higher the same bits are shifted out, as long as no
    bit is lost to the lowest exponent of the format. *)
Lemma shr_fexp_succ (M E : Z) (l : location) :
  Zdigits2 M + E - prec >= emin prec emax \/ E >= emin prec emax ->
  shr_fexp prec emax M (E + 1) l
  = (fst (shr_fexp prec emax M E l), snd (shr_fexp prec emax M E l) + 1) /\
  snd (shr_fexp prec emax M E l) >= emin prec emax.
Proof.
  intros H. unfold shr_fexp, fexp, emin, prec, emax in *.
  remember (Zdigits2 M) as dg.
  remember (shr_record_of_loc M l) as rec.
  destruct (Z.max (dg + E - 53) (3 - 1024 - 53) - E) as [|a|a] eqn:Ha;
  destruct (Z.max (dg + (E + 1) - 53) (3 - 1024 - 53) - (E + 1)) as [|b|b] eqn:Hb;
    unfold shr; cbn [fst snd]; try (exfalso; lia); try (split; [reflexivity || (f_equal; lia) | lia]).
  assert (b = a) as -> by lia. split; [f_equal; lia | lia].
Qed.

(** So rounding commutes with doubling away from underflow. *)
Lemma binary_round_aux_double (s : bool) (M E : Z) (l : location) :
  Zdigits2 M + E - prec >= emin prec emax \/ E >= emin prec emax ->
  binary_round_aux prec emax s M (E + 1) l
  = dbl (binary_round_aux prec emax s M E l).
Proof.
  intros H. unfold binary_round_aux.
  destruct (shr_fexp_succ M E l H) as [H1 He1]. rewrite H1.
  destruct (shr_fexp prec emax M E l) as [mrs1 e1]. cbn [fst snd] in *.
  set (M1 := round_nearest_even (shr_m mrs1) (loc_of_shr_record mrs1)).
  destruct (shr_fexp_succ M1 e1 loc_Exact (or_intror He1)) as [H2 _]. rewrite H2.
  destruct (shr_fexp prec emax M1 e1 loc_Exact) as [mrs2 e2]. cbn [fst snd].
  destruct (shr_m mrs2) as [|m|m]; [reflexivity | | reflexivity].
  cbn [dbl].
  destruct (e2 <=? emax - prec) eqn:A, (e2 + 1 <=? emax - prec) eqn:B; cbn [dbl]; try rewrite B; try reflexivity.
  exfalso. apply Z.leb_le in B. apply Z.leb_gt in A. lia.
Qed.

Lemma digits_shift52 (m : positive) :
  Zdigits2 (Z.pos (Pos.mul 4503599627370496 m)) = Z.pos (digits2_pos m) + 52.
Proof. cbn [Pos.mul Zdigits2 digits2_pos]. lia. Qed.

Lemma shr52 (m : positive) :
  iter_pos shr_1 52 (Build_shr_record (Z.pos (Pos.mul 4503599627370496 m)) false false)
  = Build_shr_record (Z.pos m) false false.
Proof. reflexivity. Qed.

(** A mantissa of 53 bits at an exponent of the format needs no shift. *)
Lemma shr_fexp_normal (m : positive) (e : Z) (l : location) :
  digits2_pos m = 53%positive -> emin prec emax <= e ->
  shr_fexp prec emax (Z.pos m) e l = (shr_record_of_loc (Z.pos m) l, e).
Proof.
  intros Hd Hlo. unfold shr_fexp. cbn [Zdigits2]. rewrite Hd.
  unfold fexp, emin, prec, emax in *.
  replace (Z.max (53 + e - 53) (3 - 1024 - 53) - e) with 0 by lia.
  reflexivity.
Qed.

Lemma shr_fexp_shift52 (m : positive) (e : Z) :
  digits2_pos m = 53%positive -> emin prec emax <= e + 52 ->
  shr_fexp prec emax (Z.pos (Pos.mul 4503599627370496 m)) e loc_Exact
  = (Build_shr_record (Z.pos m) false false, e + 52).
Proof.
  intros Hd Hlo. unfold shr_fexp. rewrite digits_shift52, Hd.
  unfold fexp, emin, prec, emax in *.
  replace (Z.max (53 + 52 + e - 53) (3 - 1024 - 53) - e) with 52 by lia.
  unfold shr. cbn [shr_record_of_loc]. now rewrite shr52.
Qed.

Lemma round_normal (s : bool) (m : positive) (e : Z) :
  digits2_pos m = 53%positive -> emin prec emax <= e -> e <= emax - prec ->
  (let '(mrs, e2) :=
     shr_fexp prec emax
       (round_nearest_even (Z.pos m) loc_Exact) e loc_Exact in
   match shr_m mrs with
   | 0 => S754_zero s
   | Z.pos m0 =>
       if e2 <=? emax - prec then S754_finite s m0 e2 else S754_infinity s
   | Z.neg _ => S754_nan
   end) = S754_finite s m e.
Proof.
  intros Hd Hlo Hhi. cbn [round_nearest_even].
  rewrite shr_fexp_normal by assumption. cbn [shr_record_of_loc shr_m].
  apply Z.leb_le in Hhi. now rewrite Hhi.
Qed.

(** [2 * x] is exact on a normal Number that stays in the format. *)
Lemma mul_two (s : bool) (m : positive) (e : Z) :
  digits2_pos m = 53%positive -> emin prec emax <= e -> e + 1 <= emax - prec ->
  mul (ofZ 2) (S754_finite s m e) = S754_finite s m (e + 1).
Proof.
  intros Hd Hlo Hhi.
  change (ofZ 2) with (S754_finite false 4503599627370496 (-51)).
  unfold mul. cbn [SFmul xorb]. unfold binary_round_aux.
  rewrite shr_fexp_shift52 by (assumption || lia).
  cbn [shr_m loc_of_shr_record].
  replace (-51 + e + 52) with (e + 1) by lia.
  apply round_normal; [assumption | lia | assumption].
Qed.

Lemma div_eucl_exact (a b : Z) :
  0 < b -> Z.div_eucl (a * b) b = (a, 0).
Proof.
  intros Hb. pose proof (Z.div_eucl_eq (a * b) b) as H.
  pose proof (Z_div_mult a b) as Hq. pose proof (Z_mod_mult a b) as Hr.
  unfold Z.div, Z.modulo in *.
  destruct (Z.div_eucl (a * b) b) as [q r]. cbn [fst snd] in *.
  rewrite Hq, Hr by lia. reflexivity.
Qed.

(** [x / 2] is exact on a normal Number that stays normal. *)
Lemma div_two (s : bool) (m : positive) (e : Z) :
  digits2_pos m = 53%positive -> emin prec emax <= e - 1 -> e <= emax - prec ->
  div (S754_finite s m e) (ofZ 2) = S754_finite s m (e - 1).
Proof.
  intros Hd Hlo Hhi.
  change (ofZ 2) with (S754_finite false 4503599627370496 (-51)).
  unfold div. cbn [SFdiv]. replace (xorb s false) with s by now destruct s.
  unfold SFdiv_core_binary. cbn [Zdigits2]. rewrite Hd.
  change (digits2_pos 4503599627370496) with 53%positive.
  unfold fexp, emin, prec, emax in *.
  destruct (Z.eq_dec (e - 1) (3 - 1024 - 53)) as [He|He].
  - (* the quotient sits at the lowest exponent *)
    replace (Z.min (Z.max (53 + e - (53 + -51) - 53) (3 - 1024 - 53)) (e - -51))
      with (e - 1) by lia.
    replace (e - -51 - (e - 1)) with 52 by lia.
    replace (Z.shiftl (Z.pos m) 52) with (Z.pos m * 4503599627370496) by (cbn; lia).
    rewrite div_eucl_exact by lia.
    change (new_location 4503599627370496 0) with loc_Exact.
    unfold binary_round_aux.
    rewrite shr_fexp_normal by (assumption || (unfold emin, prec, emax; lia)).
    cbn [shr_record_of_loc shr_m loc_of_shr_record].
    apply round_normal; [assumption | unfold emin, prec, emax; lia | unfold prec, emax; lia].
  - replace (Z.min (Z.max (53 + e - (53 + -51) - 53) (3 - 1024 - 53)) (e - -51))
      with (e - 2) by lia.
    replace (e - -51 - (e - 2)) with 53 by lia.
    replace (Z.shiftl (Z.pos m) 53) with (Z.pos (xO m) * 4503599627370496) by (cbn; lia).
    rewrite div_eucl_exact by lia.
    change (new_location 4503599627370496 0) with loc_Exact.
    unfold binary_round_aux.
    assert (shr_fexp 53 1024 (Z.pos (xO m)) (e - 2) loc_Exact
            = (Build_shr_record (Z.pos m) false false, e - 1)) as ->.
    { unfold shr_fexp. cbn [Zdigits2 digits2_pos]. rewrite Hd.
      unfold fexp, emin.
      replace (Z.max (Z.pos (Pos.succ 53) + (e - 2) - 53) (3 - 1024 - 53) - (e - 2))
        with 1 by lia.
      unfold shr. cbn. f_equal. lia. }
    cbn [shr_m loc_of_shr_record].
    apply round_normal; [assumption | unfold emin, prec, emax; lia | unfold prec, emax; lia].
Qed.

(** Each shift removes one binary digit; rounding adds at most one. *)
Lemma digits_shr_1 (r : shr_record) :
  0 <= shr_m r ->
  Zdigits2 (shr_m (shr_1 r)) = Z.max 0 (Zdigits2 (shr_m r) - 1) /\
  0 <= shr_m (shr_1 r).
Proof.
  destruct r as [m rb sb]. cbn [shr_m]. intros Hm.
  destruct m as [|[p|p|]|p]; cbn [shr_1 shr_m Zdigits2 digits2_pos]; lia.
Qed.

Lemma digits_shr (p : positive) (r : shr_record) :
  0 <= shr_m r ->
  Zdigits2 (shr_m (iter_pos shr_1 p r)) = Z.max 0 (Zdigits2 (shr_m r) - Z.pos p) /\
  0 <= shr_m (iter_pos shr_1 p r).
Proof.
  revert r. induction p as [p IH|p IH|]; intros r Hr; cbn [iter_pos].
  - destruct (digits_shr_1 r Hr) as [H1 H1'].
    destruct (IH _ H1') as [H2 H2']. destruct (IH _ H2') as [H3 H3'].
    split; [|exact H3']. rewrite H3, H2, H1. lia.
  - destruct (IH _ Hr) as [H2 H2']. destruct (IH _ H2') as [H3 H3'].
    split; [|exact H3']. rewrite H3, H2. lia.
  - apply digits_shr_1, Hr.
Qed.

Lemma digits_succ_pos (p : positive) :
  (digits2_pos (Pos.succ p) <= digits2_pos p + 1)%positive.
Proof. induction p as [p IH|p IH|]; cbn [Pos.succ digits2_pos]; lia. Qed.

Lemma digits_round (m : Z) (l : location) :
  0 <= m ->
  Zdigits2 (round_nearest_even m l) <= Zdigits2 m + 1 /\
  0 <= round_nearest_even m l.
Proof.
  intros Hm.
  assert (Zdigits2 (m + 1) <= Zdigits2 m + 1) as Hs.
  { destruct m as [|p|p]; [cbn; lia | | lia].
    replace (Z.pos p + 1) with (Z.pos (Pos.succ p)) by lia.
    cbn [Zdigits2]. pose proof (digits_succ_pos p). lia. }
  assert (0 <= Zdigits2 m) by (destruct m; cbn; lia).
  destruct l as [|[| |]]; cbn [round_nearest_even];
    try destruct (Z.even m); split; lia.
Qed.

(** A product that is rounded to an exponent above the lowest one lost
    no bit to underflow. *)
Lemma round_above_emin (s s' : bool) (p m' : positive) (E e' : Z) (l : location) :
  binary_round_aux prec emax s (Z.pos p) E l = S754_finite s' m' e' ->
  emin prec emax + 1 <= e' ->
  Zdigits2 (Z.pos p) + E - prec >= emin prec emax \/ E >= emin prec emax.
Proof.
  intros H He.
  destruct (Z_lt_ge_dec (Zdigits2 (Z.pos p) + E - prec) (emin prec emax)) as [Hd|Hd];
    [|now left].
  destruct (Z_lt_ge_dec E (emin prec emax)) as [HE|HE]; [|now right].
  exfalso. revert H. unfold binary_round_aux, shr_fexp at 1.
  set (dg := Zdigits2 (Z.pos p)) in *.
  unfold fexp, emin, prec, emax in *.
  destruct (Z.max (dg + E - 53) (3 - 1024 - 53) - E) as [|k|k] eqn:Hk; try lia.
  unfold shr.
  set (r1 := iter_pos shr_1 k (shr_record_of_loc (Z.pos p) l)).
  assert (0 <= shr_m (shr_record_of_loc (Z.pos p) l)) as H0
    by (destruct l as [|[| |]]; cbn; lia).
  assert (shr_m (shr_record_of_loc (Z.pos p) l) = Z.pos p) as Hm0
    by (destruct l as [|[| |]]; reflexivity).
  destruct (digits_shr k _ H0) as [Hdig Hpos]. fold r1 in Hdig, Hpos.
  rewrite Hm0 in Hdig. fold dg in Hdig.
  destruct (digits_round (shr_m r1) (loc_of_shr_record r1) Hpos) as [Hrd Hrp].
  set (M1 := round_nearest_even (shr_m r1) (loc_of_shr_record r1)) in *.
  unfold shr_fexp, fexp, emin.
  replace (Z.max (Zdigits2 M1 + (E + Z.pos k) - 53) (3 - 1024 - 53) - (E + Z.pos k))
    with 0 by lia.
  cbn [shr]. intros H.
  destruct (shr_m (shr_record_of_loc M1 loc_Exact)); try discriminate.
  destruct (E + Z.pos k <=? 1024 - 53); [|discriminate].
  injection H as _ _ H. lia.
Qed.

(** With a normal [n] below [2^1023] and a computed product that is
    normal, at least [2^-1021] and below [2^1023], both sides of the
    doubling identity are that product. *)
Lemma fringeSag64_doubling (n lambda : Number) :
  isNormal n = true -> exponent n + 1 <= emax - prec ->
  isNormal (mul n (div lambda (ofZ 1000000))) = true ->
  emin prec emax + 1 <= exponent (mul n (div lambda (ofZ 1000000)))
                     <= emax - prec - 1 ->
  calculateFringeSag (mul (ofZ 2) n) lambda
  = mul (ofZ 2) (calculateFringeSag n lambda).
Proof.
  intros Hn Hen HP HeP. unfold calculateFringeSag.
  set (L := div lambda (ofZ 1000000)) in *.
  destruct n as [| | |sn mn en]; try discriminate Hn.
  cbn [isNormal exponent] in Hn, Hen.
  apply andb_true_iff in Hn. destruct Hn as [Hn Hn3].
  apply andb_true_iff in Hn. destruct Hn as [Hn1 Hn2].
  apply Pos.eqb_eq in Hn1. apply Z.leb_le in Hn2, Hn3.
  rewrite (mul_two sn mn en Hn1 Hn2 Hen).
  destruct (mul (S754_finite sn mn en) L) as [| | |sp mp ep] eqn:HPe;
    try discriminate HP.
  cbn [isNormal exponent] in HP, HeP.
  apply andb_true_iff in HP. destruct HP as [HP HP3].
  apply andb_true_iff in HP. destruct HP as [HP1 HP2].
  apply Pos.eqb_eq in HP1.
  assert (mul (S754_finite sn mn (en + 1)) L = S754_finite sp mp (ep + 1)) as ->.
  { destruct L as [sl|sl| |sl ml el]; try discriminate HPe.
    revert HPe. unfold mul. cbn [SFmul]. intros HPe.
    replace (en + 1 + el) with (en + el + 1) by lia.
    rewrite binary_round_aux_double, HPe.
    - cbn [dbl]. destruct (ep + 1 <=? emax - prec) eqn:A; [reflexivity|].
      apply Z.leb_gt in A. lia.
    - eapply round_above_emin; [exact HPe | lia]. }
  rewrite (div_two sp mp (ep + 1)) by (assumption || lia).
  rewrite (div_two sp mp ep) by (assumption || lia).
  rewrite (mul_two sp mp (ep - 1)) by (assumption || lia).
  f_equal; lia.
Qed.


Local Close Scope Z_scope.

(** C9, as stated, fails: for the smallest positive Number n = 2^-1074
    and wavelength 1000000, the fringe sag of 2n is 2^-1074 while twice
    the fringe sag of n is 0, because n / 2 rounds to 0. *)
Lemma calculateFringeSag_not_doubling :
  calculateFringeSag (mul (ofZ 2) (pow2 (-1074))) (ofZ 1000000) = pow2 (-1074) /\
  mul (ofZ 2) (calculateFringeSag (pow2 (-1074)) (ofZ 1000000)) = zero /\
  calculateFringeSag (mul (ofZ 2) (pow2 (-1074))) (ofZ 1000000)
    <> mul (ofZ 2) (calculateFringeSag (pow2 (-1074)) (ofZ 1000000)).
Proof. vm_compute. repeat split. discriminate. Qed.

(** C9, amended.  For every fringe count [n] and wavelength [l],
    [calculateFringeSag n l] is [n * (l / 1000000) / 2], each operation
    rounded, and changes sign with [n].  Doubling the count doubles it,
    [fringeSag (2 * n) l = 2 * fringeSag n l], whenever [n] is a normal
    Number below [2^1023] and the product [n * (l / 1000000)] the code
    computes is a normal Number of magnitude between [2^-1021] and
    [2^1023]; outside that range rounding at underflow or overflow can
    break the equality. *)
Theorem calculateFringeSag64_linear (n lambda : Number) :
  calculateFringeSag n lambda
    = div (mul n (div lambda (ofZ 1000000))) (ofZ 2) /\
  calculateFringeSag (opp n) lambda = opp (calculateFringeSag n lambda) /\
  (isNormal n = true -> (exponent n + 1 <= emax - prec)%Z ->
   isNormal (mul n (div lambda (ofZ 1000000))) = true ->
   (emin prec emax + 1 <= exponent (mul n (div lambda (ofZ 1000000)))
                       <= emax - prec - 1)%Z ->
   calculateFringeSag (mul (ofZ 2) n) lambda
   = mul (ofZ 2) (calculateFringeSag n lambda)).
Proof.
  split; [reflexivity|]. split; [apply fringeSag64_odd|].
  apply fringeSag64_doubling.
Qed.

Lemma calculateFringeSag64_linear_witness :
  calculateFringeSag (mul (ofZ 2) (ofZ 5)) (decimal 6328 1)
  = mul (ofZ 2) (calculateFringeSag (ofZ 5) (decimal 6328 1)).
Proof.
  apply (proj2 (proj2 (calculateFringeSag64_linear (ofZ 5) (decimal 6328 1)))).
  - reflexivity.
  - vm_compute. discriminate.
  - reflexivity.
  - vm_compute. split; discriminate.
Defined.

(** *** The whole calculation *)

(** C10, as stated, fails in its last part: with the type [convex],
    diameter 30, testplate radius 1e200 and no fringes the actual sag is
    [-Infinity] and the reported radius is [NaN], which is not a
    non-negative number. *)
Lemma calculateSurface_other_type_nan :
  rActual (calculateSurface "convex" (ofZ 30) (ofZ (10 ^ 200)) zero (decimal 6328 1))
    = S754_nan /\
  leb zero
    (rActual (calculateSurface "convex" (ofZ 30) (ofZ (10 ^ 200)) zero
                (decimal 6328 1))) = false.
Proof. vm_compute. split; reflexivity. Qed.

(** C10, amended.  For a type string that is neither ['Convex'] nor
    ['Concave'], [calculateActualSag] takes the Concave rule and
    [calculateActualRadius] the Convex rule, so [calculateSurface]
    returns the testplate sag of its inputs, their fringe sag, the first
    minus the second as actual sag, and as actual radius the Convex
    radius of that difference, which is never below 0: it is above or
    equal to 0, or [NaN] when the arithmetic overflows. *)
Theorem calculateSurface64_other_type
    (type : string) (diameter rTestplate fringes wavelength : Number) :
  type <> "Convex" -> type <> "Concave" ->
  (forall t f, calculateActualSag type t f = sub t f) /\
  (forall t f, calculateActualSag type t f = calculateActualSag "Concave" t f) /\
  (forall d z, calculateActualRadius type d z = calculateActualRadius "Convex" d z) /\
  calculateSurface type diameter rTestplate fringes wavelength
  = mkSurfaceResult
      (calculateTestplateSag rTestplate diameter)
      (calculateFringeSag fringes wavelength)
      (sub (calculateTestplateSag rTestplate diameter)
           (calculateFringeSag fringes wavelength))
      (calculateActualRadius "Convex" diameter
         (sub (calculateTestplateSag rTestplate diameter)
              (calculateFringeSag fringes wavelength))) /\
  ltb (rActual (calculateSurface type diameter rTestplate fringes wavelength)) zero
    = false /\
  (leb zero (rActual (calculateSurface type diameter rTestplate fringes wavelength))
     = true \/
   rActual (calculateSurface type diameter rTestplate fringes wavelength)
     = S754_nan).
Proof.
  intros Hx Hv.
  apply String.eqb_neq in Hx. apply String.eqb_neq in Hv.
  assert (forall t f, calculateActualSag type t f = sub t f) as Hsag.
  { intros t f. unfold calculateActualSag. now rewrite Hx. }
  assert (forall d z, calculateActualRadius type d z
                      = calculateActualRadius "Convex" d z) as Hrad.
  { intros d z. unfold calculateActualRadius. now rewrite Hv. }
  split; [exact Hsag|].
  split; [intros t f; now rewrite Hsag|].
  split; [exact Hrad|].
  split; [unfold calculateSurface; now rewrite Hsag, Hrad|].
  destruct (actualRadius64_not_negative type diameter
              (sagActual (calculateSurface type diameter rTestplate fringes wavelength))
              Hv) as [H1 H2].
  split; [exact H2 | exact H1].
Qed.

Lemma calculateSurface64_other_type_witness :
  calculateSurface "convex" (ofZ 30) (ofZ 33) (ofZ 5) (decimal 6328 1)
  = mkSurfaceResult
      (calculateTestplateSag (ofZ 33) (ofZ 30))
      (calculateFringeSag (ofZ 5) (decimal 6328 1))
      (sub (calculateTestplateSag (ofZ 33) (ofZ 30))
           (calculateFringeSag (ofZ 5) (decimal 6328 1)))
      (calculateActualRadius "Convex" (ofZ 30)
         (sub (calculateTestplateSag (ofZ 33) (ofZ 30))
              (calculateFringeSag (ofZ 5) (decimal 6328 1)))).
Proof.
  assert ("convex" <> "Convex") as Hx by discriminate.
  assert ("convex" <> "Concave") as Hv by discriminate.
  destruct (calculateSurface64_other_type "convex" (ofZ 30) (ofZ 33) (ofZ 5)
              (decimal 6328 1) Hx Hv) as (_ & _ & _ & H & _).
  exact H.
Defined.

End Calculations64Facts.
